(** * The chat hook [useChat] (src/hooks/useChat.ts)

    The hook is orchestration code over the Supabase client: every function
    builds a query, awaits the reply [{ data, error }] and reacts with React
    state setters and toasts.  The embedding keeps that shape:

    - a function of the hook is a program ([Prog]) whose nodes are the awaits
      on the remote service, the state setters, the toasts and the reads of
      the wall clock, in the order the source performs them;
    - a program runs in a [World]: the state of the remote service, the client
      clock, the hook's React state and the history of what happened;
    - the remote service is a parameter of [run] (a [Backend]), so that what
      is proved about control flow holds for every behaviour of the service;
      [supabase] is a relational model of it, for the statements that depend
      on what a query returns. *)

From Stdlib Require Import List String Ascii NArith Bool Arith Lia.
From Stdlib Require Import Permutation Sorted.
Import ListNotations.
Local Open Scope string_scope.
Local Open Scope list_scope.

Set Implicit Arguments.

(** ** Data model *)

Definition uuid := string.

(** Instants ([created_at], [updated_at], [new Date()]) on one time line. *)
Definition timestamp := N.

(** A JavaScript string as its UTF-16 code units.  Only the body of a message
    is kept this way, because it is the one string the hook looks into
    ([trim]); identifiers, roles and column values are only ever compared. *)
Definition text := list N.

Definition js (s : string) : text := map N_of_ascii (list_ascii_of_string s).

(** The identity handed out by [useAuth()]; [user] is [null] when nobody is
    signed in.  The hook reads [user.id] and [user.role]. *)
Module User.
Record t := make { id : uuid; role : string }.
End User.

(** The status argument of [updateChatStatus]. *)
Inductive Status := active | waiting | closed.

Definition status_text (s : Status) : string :=
  match s with
  | active => "active"
  | waiting => "waiting"
  | closed => "closed"
  end.

(** A row of [chat_rooms], as [select('*')] returns it.  The [status] column
    is text: the hook casts it ([room.status as ...]) without a check. *)
Module Room.
Record row := make {
    id : uuid;
    customer_id : uuid;
    agent_id : option uuid;
    status : string;
    created_at : timestamp;
    updated_at : timestamp
  }.
End Room.

(** [profiles!customer_id(name, email)] and [profiles!agent_id(name, email)]. *)
Record Contact := { name : string; email : string }.

(** [profiles!sender_id(name, role)]. *)
Record Sender := { sender_name : string; sender_role : string }.

(** A row of [chat_rooms] with the two embedded profiles of the select in
    [fetchChatRooms]. *)
Record RoomWithProfiles := {
  room_row : Room.row;
  room_customer : option Contact;
  room_agent : option Contact
}.

(** Modelled from the spec: the type [ChatRoom] of [@/types/chat], of which
    the source only shows the fields it fills in [fetchChatRooms]: id,
    customer reference, optional agent reference, status, the two timestamps
    and the display info of customer and agent. *)
Module ChatRoom.
Record t := make {
    id : uuid;
    customer_id : uuid;
    agent_id : option uuid;
    status : string;
    created_at : timestamp;
    updated_at : timestamp;
    customer : option Contact;
    agent : option Contact
  }.
End ChatRoom.

(** Modelled from the spec: a row of [chat_messages] (identity, owning room,
    sender, body, creation time); the source names the columns
    [chat_room_id], [sender_id], [message] and [created_at]. *)
Module Msg.
Record row := make {
    id : uuid;
    chat_room_id : uuid;
    sender_id : uuid;
    message : text;
    created_at : timestamp
  }.
End Msg.

(** Modelled from the spec: the type [Message] of [@/types/chat], a message row
    with the display info of its sender, as the select of [fetchMessages]
    returns it. *)
Record Message := { msg_row : Msg.row; sender : option Sender }.

Record Toast := {
  title : string;
  description : string;
  variant : option string
}.

(** ** Queries

    The query builder: [from(table).select(...)] starts a query, [eq] and
    [order] refine it. *)

(** Columns a query filters on with [eq]: the identifiers and text columns. *)
Inductive RoomKey :=
| rooms_id | rooms_customer_id | rooms_agent_id | rooms_status.

Inductive MessageKey :=
| messages_id | messages_chat_room_id | messages_sender_id.

(** Columns a query sorts on with [order]: the timestamps. *)
Inductive RoomTime := rooms_created_at | rooms_updated_at.

Inductive MessageTime := messages_created_at.

Record Query (Key Time : Type) := {
  filters : list (Key * string);
  ordering : option (Time * bool)    (* column, [ascending] *)
}.

Definition RoomQuery := Query RoomKey RoomTime.
Definition MessageQuery := Query MessageKey MessageTime.

Definition select {Key Time} : Query Key Time :=
  {| filters := []; ordering := None |}.

Definition eq_ {Key Time} (c : Key) (v : string) (q : Query Key Time)
  : Query Key Time :=
  {| filters := filters q ++ [(c, v)]; ordering := ordering q |}.

Definition order {Key Time} (c : Time) (ascending : bool) (q : Query Key Time)
  : Query Key Time :=
  {| filters := filters q; ordering := Some (c, ascending) |}.

(** The object given to [insert] on [chat_rooms]. *)
Record RoomInsert := { ins_customer_id : uuid; ins_status : string }.

(** The object given to [update] on [chat_rooms]; an absent key is [None]. *)
Record RoomUpdate := {
  set_status : option string;
  set_agent_id : option uuid;
  set_updated_at : option timestamp
}.

(** The object given to [insert] on [chat_messages]. *)
Record MessageInsert := {
  ins_chat_room_id : uuid;
  ins_sender_id : uuid;
  ins_message : text
}.

(** The requests the hook awaits. *)
Inductive Request :=
| SelectRooms (q : RoomQuery)
    (* from('chat_rooms').select('*, customer:..., agent:...') *)
| SelectRoomMaybeSingle (q : RoomQuery)
    (* from('chat_rooms').select('*') ... .maybeSingle() *)
| InsertRoomSingle (values : RoomInsert)
    (* from('chat_rooms').insert(values).select().single() *)
| UpdateRooms (values : RoomUpdate) (q : RoomQuery)
    (* from('chat_rooms').update(values) ... *)
| SelectMessages (q : MessageQuery)
    (* from('chat_messages').select('*, sender:...') *)
| InsertMessage (values : MessageInsert).
    (* from('chat_messages').insert(values) *)

Definition Data (r : Request) : Type :=
  match r with
  | SelectRooms _ => list RoomWithProfiles
  | SelectRoomMaybeSingle _ => Room.row
  | InsertRoomSingle _ => Room.row
  | UpdateRooms _ _ => unit
  | SelectMessages _ => list Message
  | InsertMessage _ => unit
  end.

Inductive PostgrestError :=
| FetchFailed          (* the request did not get through *)
| MultipleRows.        (* PGRST116: a single object requested, several rows *)

(** What an awaited query resolves to: [{ data, error }], [data] being [null]
    as [None]. *)
Record Response (r : Request) := {
  data : option (Data r);
  error : option PostgrestError
}.
Arguments data {r} _.
Arguments error {r} _.

(** ** Programs *)

Inductive Effect :=
| setChatRooms (rooms : list ChatRoom.t)
| setSelectedChat (chat : option ChatRoom.t)
| setMessages (messages : list Message)
| setLoading (flag : bool)
| toast (t : Toast).

Inductive Prog (A : Type) : Type :=
| Ret (a : A)
| Await (r : Request) (k : Response r -> Prog A)
| Perform (e : Effect) (k : Prog A)
| NewDate (k : timestamp -> Prog A).
Arguments Ret {A} a.
Arguments Await {A} r k.
Arguments Perform {A} e k.
Arguments NewDate {A} k.

Fixpoint bind {A B} (p : Prog A) (f : A -> Prog B) : Prog B :=
  match p with
  | Ret a => f a
  | Await r k => Await r (fun resp => bind (k resp) f)
  | Perform e k => Perform e (bind k f)
  | NewDate k => NewDate (fun t => bind (k t) f)
  end.

Definition await (r : Request) : Prog (Response r) := Await r Ret.
Definition perform (e : Effect) : Prog unit := Perform e (Ret tt).
Definition new_Date : Prog timestamp := NewDate Ret.

Declare Scope prog_scope.
Delimit Scope prog_scope with prog.
Notation "x <- p ;; q" := (bind p (fun x => q))
  (at level 100, p at next level, right associativity) : prog_scope.
Notation "p ;; q" := (bind p (fun _ => q))
  (at level 100, right associativity) : prog_scope.
Local Open Scope prog_scope.

(** [try { body } finally { handler }] for a body that does not throw: a
    [return] inside the body ends the body, the handler runs after it. *)
Definition try_finally {A} (body : Prog A) (handler : Prog unit) : Prog A :=
  a <- body ;; handler ;; Ret a.

(** ** String helpers of the source *)

(** The code units [String.prototype.trim] strips: WhiteSpace and
    LineTerminator of ECMAScript. *)
Definition is_whitespace (c : N) : bool :=
  existsb (N.eqb c)
    [9; 10; 11; 12; 13; 32; 160; 5760; 8232; 8233; 8239; 8287; 12288; 65279]%N
  || ((8192 <=? c) && (c <=? 8202))%N.

Fixpoint trimStart (s : text) : text :=
  match s with
  | [] => []
  | c :: s' => if is_whitespace c then trimStart s' else s
  end.

Definition trim (s : text) : text := rev (trimStart (rev (trimStart s))).

(** Truthiness of a string: the empty string is falsy. *)
Definition truthy (s : string) : bool := negb (s =? "").

(** ** The hook's functions *)

Definition destructive (d : string) : Toast :=
  {| title := "Error"; description := d; variant := Some "destructive" |}.

Definition transform (room : RoomWithProfiles) : ChatRoom.t :=
  {| ChatRoom.id := Room.id (room_row room);
     ChatRoom.customer_id := Room.customer_id (room_row room);
     ChatRoom.agent_id := Room.agent_id (room_row room);
     ChatRoom.status := Room.status (room_row room);
     ChatRoom.created_at := Room.created_at (room_row room);
     ChatRoom.updated_at := Room.updated_at (room_row room);
     ChatRoom.customer := room_customer room;
     ChatRoom.agent := room_agent room |}.

(** [data || []] *)
Definition or_empty {A} (d : option (list A)) : list A :=
  match d with Some l => l | None => [] end.

Definition fetchChatRooms (user : option User.t) : Prog unit :=
  match user with
  | None => Ret tt
  | Some user =>
    try_finally
      (let query := order rooms_updated_at false select in
       let query :=
         if User.role user =? "customer"
         then eq_ rooms_customer_id (User.id user) query
         else query in
       resp <- await (SelectRooms query) ;;
       match error resp with
       | Some _ => perform (toast (destructive "Failed to load chat rooms"))
       | None =>
         let transformedData := map transform (or_empty (data resp)) in
         perform (setChatRooms transformedData)
       end)
      (perform (setLoading false))
  end.

Definition fetchMessages (chatRoomId : uuid) : Prog unit :=
  resp <- await (SelectMessages
                   (order messages_created_at true
                      (eq_ messages_chat_room_id chatRoomId select))) ;;
  match error resp with
  | None => perform (setMessages (or_empty (data resp)))
  | Some _ => Ret tt
  end.

Definition getOrCreateChatRoom (user : option User.t) : Prog (option Room.row) :=
  match user with
  | None => Ret None
  | Some user =>
    if negb (User.role user =? "customer") then Ret None else
    existing <- await (SelectRoomMaybeSingle
                         (eq_ rooms_customer_id (User.id user) select)) ;;
    match data existing with
    | Some existingRoom => Ret (Some existingRoom)
    | None =>
      created <- await (InsertRoomSingle
                          {| ins_customer_id := User.id user;
                             ins_status := "waiting" |}) ;;
      match error created with
      | Some _ =>
        perform (toast (destructive "Failed to create chat room")) ;;
        Ret None
      | None => Ret (data created)
      end
    end
  end.

Definition sendMessage (user : option User.t) (chatRoomId : uuid)
    (message : text) : Prog unit :=
  match user, trim message with
  | None, _ => Ret tt
  | Some _, [] => Ret tt
  | Some user, _ :: _ =>
    resp <- await (InsertMessage
                     {| ins_chat_room_id := chatRoomId;
                        ins_sender_id := User.id user;
                        ins_message := trim message |}) ;;
    match error resp with
    | Some _ => perform (toast (destructive "Failed to send message"))
    | None => Ret tt
    end ;;
    now <- new_Date ;;
    await (UpdateRooms
             {| set_status := None; set_agent_id := None;
                set_updated_at := Some now |}
             (eq_ rooms_id chatRoomId select)) ;;
    Ret tt
  end.

Definition updateChatStatus (user : option User.t) (chatRoomId : uuid)
    (status : Status) (agentId : option uuid) : Prog unit :=
  match user with
  | None => Ret tt
  | Some user =>
    if User.role user =? "customer" then Ret tt else
    let updateData :=
      {| set_status := Some (status_text status); set_agent_id := None;
         set_updated_at := None |} in
    let updateData :=
      match agentId with
      | Some a =>
        if truthy a
        then {| set_status := set_status updateData; set_agent_id := Some a;
                set_updated_at := set_updated_at updateData |}
        else updateData
      | None => updateData
      end in
    resp <- await (UpdateRooms updateData (eq_ rooms_id chatRoomId select)) ;;
    match error resp with
    | Some _ => perform (toast (destructive "Failed to update chat status"))
    | None => Ret tt
    end
  end.

(** ** Running a program *)

(** The React state of the hook: [useState([])], [useState(null)],
    [useState([])], [useState(true)]. *)
Record Session := {
  chatRooms : list ChatRoom.t;
  selectedChat : option ChatRoom.t;
  messages : list Message;
  loading : bool
}.

Definition initial_session : Session :=
  {| chatRooms := []; selectedChat := None; messages := []; loading := true |}.

Definition apply (e : Effect) (s : Session) : Session :=
  match e with
  | setChatRooms l =>
    {| chatRooms := l; selectedChat := selectedChat s;
       messages := messages s; loading := loading s |}
  | setSelectedChat c =>
    {| chatRooms := chatRooms s; selectedChat := c;
       messages := messages s; loading := loading s |}
  | setMessages l =>
    {| chatRooms := chatRooms s; selectedChat := selectedChat s;
       messages := l; loading := loading s |}
  | setLoading b =>
    {| chatRooms := chatRooms s; selectedChat := selectedChat s;
       messages := messages s; loading := b |}
  | toast _ => s
  end.

(** What an observer of the hook sees happen, oldest first: a request went
    out and came back with this [error], or an effect was performed. *)
Inductive Event :=
| Awaited (r : Request) (err : option PostgrestError)
| Performed (e : Effect).

Record World (S : Type) := {
  remote : S;
  clock : timestamp;
  session : Session;
  history : list Event
}.

(** The remote service: it answers a request and moves to a new state. *)
Definition Backend (S : Type) := forall r : Request, S -> Response r * S.

(** Every await is a round trip, during which the client clock advances. *)
Fixpoint run {S A} (backend : Backend S) (p : Prog A) (w : World S)
  : A * World S :=
  match p with
  | Ret a => (a, w)
  | Await r k =>
    let (resp, s) := backend r (remote w) in
    run backend (k resp)
      {| remote := s; clock := (clock w + 1)%N; session := session w;
         history := history w ++ [Awaited r (error resp)] |}
  | Perform e k =>
    run backend k
      {| remote := remote w; clock := clock w; session := apply e (session w);
         history := history w ++ [Performed e] |}
  | NewDate k => run backend (k (clock w)) w
  end.

(** Projections of a history. *)
Definition toasts (h : list Event) : list Toast :=
  flat_map (fun e => match e with Performed (toast t) => [t] | _ => [] end) h.

Definition requests (h : list Event) : list Request :=
  flat_map (fun e => match e with Awaited r _ => [r] | _ => [] end) h.

Definition loading_writes (h : list Event) : list bool :=
  flat_map (fun e => match e with Performed (setLoading b) => [b] | _ => [] end) h.

(** The number of times a flag goes from [true] to [false] when the values
    [writes] are stored into it one after the other, starting from [flag]. *)
Fixpoint falls (flag : bool) (writes : list bool) : nat :=
  match writes with
  | [] => 0
  | b :: writes' => (if flag && negb b then 1 else 0) + falls b writes'
  end.

Definition is_insert (r : Request) : bool :=
  match r with
  | InsertRoomSingle _ | InsertMessage _ => true
  | _ => false
  end.

(** ** The remote service

    Modelled from the spec: the Remote Data Service, which is not part of the
    repository: a relational store with the tables [profiles], [chat_rooms]
    and [chat_messages], offering select with joins, filter by equality,
    ordering, single and maybe-single fetch, insert and update.  The calls
    behave as the client library documents them: [maybeSingle] gives the row
    when there is one, [null] when there is none, and an error with a [null]
    [data] when there are several; [insert] and [update] without [select]
    resolve with a [null] [data]. *)

Module Profile.
Record row := make { id : uuid; name : string; email : string; role : string }.
End Profile.

Record Supabase := {
  profiles : list Profile.row;
  chat_rooms : list Room.row;
  chat_messages : list Msg.row;
  server_time : timestamp;
  (** Whether the coming requests get through, one flag a request ([true]:
      the request is lost); every request gets through once the list is
      used up. *)
  outages : list bool
}.

Section Evaluation.

Variables Row Key Time : Type.
Variable text_of : Key -> Row -> option string.
Variable time_of : Time -> Row -> timestamp.

  (** [column = value] for every [eq] of the query; a [NULL] equals nothing. *)
Definition matches (q : Query Key Time) (r : Row) : bool :=
    forallb (fun f : Key * string =>
               match text_of (fst f) r with
               | Some s => s =? snd f
               | None => false
               end) (filters q).

Definition before (o : Time * bool) (a b : Row) : bool :=
    if snd o
    then (time_of (fst o) a <=? time_of (fst o) b)%N
    else (time_of (fst o) b <=? time_of (fst o) a)%N.

Fixpoint insert_by (leb : Row -> Row -> bool) (x : Row) (l : list Row)
    : list Row :=
    match l with
    | [] => [x]
    | y :: l' => if leb x y then x :: l else y :: insert_by leb x l'
    end.

Definition sort_by (leb : Row -> Row -> bool) (l : list Row) : list Row :=
    fold_right (insert_by leb) [] l.

  (** The rows a query selects from a table. *)
Definition rows_of (q : Query Key Time) (table : list Row) : list Row :=
    let hits := filter (matches q) table in
    match ordering q with
    | Some o => sort_by (before o) hits
    | None => hits
    end.

End Evaluation.

Definition room_text (c : RoomKey) (r : Room.row) : option string :=
  match c with
  | rooms_id => Some (Room.id r)
  | rooms_customer_id => Some (Room.customer_id r)
  | rooms_agent_id => Room.agent_id r
  | rooms_status => Some (Room.status r)
  end.

Definition room_time (c : RoomTime) (r : Room.row) : timestamp :=
  match c with
  | rooms_created_at => Room.created_at r
  | rooms_updated_at => Room.updated_at r
  end.

Definition message_text (c : MessageKey) (m : Msg.row) : option string :=
  match c with
  | messages_id => Some (Msg.id m)
  | messages_chat_room_id => Some (Msg.chat_room_id m)
  | messages_sender_id => Some (Msg.sender_id m)
  end.

Definition message_time (c : MessageTime) (m : Msg.row) : timestamp :=
  match c with
  | messages_created_at => Msg.created_at m
  end.

Definition select_rooms (q : RoomQuery) (db : Supabase) : list Room.row :=
  rows_of room_text room_time q (chat_rooms db).

Definition select_messages (q : MessageQuery) (db : Supabase) : list Msg.row :=
  rows_of message_text message_time q (chat_messages db).

Definition profile (db : Supabase) (id : uuid) : option Profile.row :=
  find (fun p => Profile.id p =? id) (profiles db).

Definition contact (db : Supabase) (id : option uuid) : option Contact :=
  match id with
  | Some i =>
    option_map (fun p => {| name := Profile.name p; email := Profile.email p |})
               (profile db i)
  | None => None
  end.

Definition with_profiles (db : Supabase) (r : Room.row) : RoomWithProfiles :=
  {| room_row := r;
     room_customer := contact db (Some (Room.customer_id r));
     room_agent := contact db (Room.agent_id r) |}.

Definition with_sender (db : Supabase) (m : Msg.row) : Message :=
  {| msg_row := m;
     sender :=
       option_map (fun p => {| sender_name := Profile.name p;
                               sender_role := Profile.role p |})
                  (profile db (Msg.sender_id m)) |}.

(** A stand-in for [gen_random_uuid()]: an identifier longer than every one
    in use, hence new. *)
Fixpoint zeros (n : nat) : string :=
  match n with
  | O => ""
  | S n' => String "0" (zeros n')
  end.

Definition gen_random_uuid (used : list uuid) : uuid :=
  zeros (S (fold_right (fun u n => Nat.max (String.length u) n) 0 used)).

Definition patch (v : RoomUpdate) (r : Room.row) : Room.row :=
  {| Room.id := Room.id r;
     Room.customer_id := Room.customer_id r;
     Room.agent_id :=
       match set_agent_id v with Some a => Some a | None => Room.agent_id r end;
     Room.status :=
       match set_status v with Some s => s | None => Room.status r end;
     Room.created_at := Room.created_at r;
     Room.updated_at :=
       match set_updated_at v with Some t => t | None => Room.updated_at r end |}.

Definition new_room (v : RoomInsert) (db : Supabase) : Room.row :=
  {| Room.id := gen_random_uuid (map Room.id (chat_rooms db));
     Room.customer_id := ins_customer_id v;
     Room.agent_id := None;
     Room.status := ins_status v;
     Room.created_at := server_time db;
     Room.updated_at := server_time db |}.

Definition new_message (v : MessageInsert) (db : Supabase) : Msg.row :=
  {| Msg.id := gen_random_uuid (map Msg.id (chat_messages db));
     Msg.chat_room_id := ins_chat_room_id v;
     Msg.sender_id := ins_sender_id v;
     Msg.message := ins_message v;
     Msg.created_at := server_time db |}.

Definition with_rooms (rooms : list Room.row) (db : Supabase) : Supabase :=
  {| profiles := profiles db; chat_rooms := rooms;
     chat_messages := chat_messages db; server_time := server_time db;
     outages := outages db |}.

Definition with_messages (l : list Msg.row) (db : Supabase) : Supabase :=
  {| profiles := profiles db; chat_rooms := chat_rooms db;
     chat_messages := l; server_time := server_time db;
     outages := outages db |}.

Definition resolved {r} (d : option (Data r)) : Response r :=
  {| data := d; error := None |}.

Definition rejected {r} (e : PostgrestError) : Response r :=
  {| data := None; error := Some e |}.

(** A request that got through. *)
Definition serve (r : Request) (db : Supabase) : Response r * Supabase :=
  match r as r0 return Response r0 * Supabase with
  | SelectRooms q =>
    (resolved (r := SelectRooms q)
       (Some (map (with_profiles db) (select_rooms q db))), db)
  | SelectRoomMaybeSingle q =>
    match select_rooms q db with
    | [] => (resolved None, db)
    | [row] => (resolved (r := SelectRoomMaybeSingle q) (Some row), db)
    | _ :: _ :: _ => (rejected MultipleRows, db)
    end
  | InsertRoomSingle v =>
    let row := new_room v db in
    (resolved (r := InsertRoomSingle v) (Some row),
     with_rooms (chat_rooms db ++ [row]) db)
  | UpdateRooms v q =>
    (resolved None,
     with_rooms (map (fun row => if matches room_text q row
                                 then patch v row else row)
                     (chat_rooms db)) db)
  | SelectMessages q =>
    (resolved (r := SelectMessages q)
       (Some (map (with_sender db) (select_messages q db))), db)
  | InsertMessage v =>
    (resolved None,
     with_messages (chat_messages db ++ [new_message v db]) db)
  end.

(** Whether the [n]-th coming request gets through. *)
Definition gets_through (n : nat) (db : Supabase) : bool :=
  negb (nth n (outages db) false).

(** A request reaches the service or is lost; time passes either way. *)
Definition arrive (db : Supabase) : Supabase :=
  {| profiles := profiles db; chat_rooms := chat_rooms db;
     chat_messages := chat_messages db;
     server_time := (server_time db + 1)%N;
     outages := tl (outages db) |}.

(** The service as the hook meets it. *)
Definition supabase : Backend Supabase :=
  fun r db =>
    if gets_through 0 db
    then serve r (arrive db)
    else (rejected FetchFailed, arrive db).

(** Every coming request gets through. *)
Definition reliable (db : Supabase) : bool := forallb negb (outages db).

(** The rooms of a customer. *)
Definition rooms_of_customer (uid : uuid) (db : Supabase) : list Room.row :=
  filter (fun r => Room.customer_id r =? uid) (chat_rooms db).

(** ** Statements about the hook *)

(** The two requests of [sendMessage]. *)
Definition message_insert (user : User.t) (chatRoomId : uuid) (message : text)
  : Request :=
  InsertMessage {| ins_chat_room_id := chatRoomId;
                   ins_sender_id := User.id user;
                   ins_message := trim message |}.

Definition room_touch (chatRoomId : uuid) (now : timestamp) : Request :=
  UpdateRooms {| set_status := None; set_agent_id := None;
                 set_updated_at := Some now |}
              (eq_ rooms_id chatRoomId select).

(** One call of [fetchChatRooms] makes the loading flag go from [true] to
    [false] exactly once. *)
Definition loading_falls_once {S} (backend : Backend S)
    (user : option User.t) (w : World S) : Prop :=
  exists new,
    history (snd (run backend (fetchChatRooms user) w)) = history w ++ new
    /\ falls (loading (session w)) (loading_writes new) = 1.

(** Two calls of [getOrCreateChatRoom] in a row, nothing happening in
    between, return the same room. *)
Definition same_room_twice {S} (backend : Backend S)
    (user : User.t) (w : World S) : Prop :=
  let first := run backend (getOrCreateChatRoom (Some user)) w in
  let second := run backend (getOrCreateChatRoom (Some user)) (snd first) in
  exists r, fst first = Some r /\ fst second = Some r.

(** ** Sample data *)

Definition zoe : User.t := {| User.id := "zoe"; User.role := "customer" |}.
Definition sam : User.t := {| User.id := "sam"; User.role := "agent" |}.

Definition room_1 : Room.row := Room.make "room-1" "zoe" None "closed" 3%N 5%N.
Definition room_2 : Room.row := Room.make "room-2" "ann" (Some "sam") "active" 4%N 9%N.
Definition room_3 : Room.row := Room.make "room-3" "zoe" None "waiting" 6%N 7%N.

Definition hello : Msg.row := Msg.make "m-1" "room-1" "zoe" (js "hello") 8%N.
Definition welcome : Msg.row := Msg.make "m-2" "room-1" "sam" (js "welcome") 4%N.
Definition other : Msg.row := Msg.make "m-3" "room-2" "ann" (js "hi") 6%N.

Definition people : list Profile.row :=
  [Profile.make "zoe" "Zoe" "zoe@example.org" "customer";
   Profile.make "sam" "Sam" "sam@example.org" "agent"].

Definition database (rooms : list Room.row) (lost : list bool) : Supabase :=
  {| profiles := people; chat_rooms := rooms;
     chat_messages := [hello; welcome; other];
     server_time := 10%N; outages := lost |}.

(** The hook just mounted. *)
Definition mounted (db : Supabase) : World Supabase :=
  {| remote := db; clock := 100%N; session := initial_session; history := [] |}.

(** ** Callbacks and effects of the hook *)

(** The query [fetchChatRooms] builds for an identity. *)
Definition rooms_query (user : User.t) : RoomQuery :=
  let query := order rooms_updated_at false select in
  if User.role user =? "customer"
  then eq_ rooms_customer_id (User.id user) query
  else query.

(** The request [updateChatStatus] sends: [{ status }], with [agent_id] when
    [agentId] is truthy. *)
Definition status_update (chatRoomId : uuid) (status : Status)
    (agentId : option uuid) : Request :=
  UpdateRooms
    {| set_status := Some (status_text status);
       set_agent_id :=
         match agentId with
         | Some a => if truthy a then Some a else None
         | None => None
         end;
       set_updated_at := None |}
    (eq_ rooms_id chatRoomId select).

(** The row the insert of [sendMessage] adds when it gets through. *)
Definition sent (user : User.t) (chatRoomId : uuid) (message : text)
    (db : Supabase) : Msg.row :=
  new_message {| ins_chat_room_id := chatRoomId;
                 ins_sender_id := User.id user;
                 ins_message := trim message |} (arrive db).

Definition newMessageToast : Toast :=
  {| title := "New Message"; description := "You have a new message";
     variant := None |}.

(** The callback of the subscription to the inserts into [chat_messages] for
    the selected room; [payload.new] is [newMessage], and [prev] is the list
    the updater [prev => [...prev, newMessage]] is applied to.  The effect
    that installs the callback runs with an identity only. *)
Definition onMessageInsert (user : User.t) (newMessage : Message)
    (prev : list Message) : Prog unit :=
  perform (setMessages (prev ++ [newMessage])) ;;
  (if negb (Msg.sender_id (msg_row newMessage) =? User.id user)
   then perform (toast newMessageToast)
   else Ret tt) ;;
  fetchChatRooms (Some user).

(** A notification arrives: the updater sees the message list of the
    moment. *)
Definition receive {S} (backend : Backend S) (user : User.t)
    (newMessage : Message) (w : World S) : World S :=
  snd (run backend (onMessageInsert user newMessage (messages (session w))) w).

(** Notifications arrive one after the other. *)
Definition receive_all {S} (backend : Backend S) (user : User.t)
    (arrivals : list Message) (w : World S) : World S :=
  fold_left (fun w m => receive backend user m w) arrivals w.

(** [user?.role === 'customer'] *)
Definition is_customer (user : option User.t) : bool :=
  match user with
  | Some u => User.role u =? "customer"
  | None => false
  end.

(** The effect "Initial data load". *)
Definition initialLoad (user : option User.t) : Prog unit :=
  match user with
  | Some _ => fetchChatRooms user
  | None => Ret tt
  end.

(** The effect "Auto-create/select for customer", over the state [s] of the
    render it belongs to. *)
Definition autoProvision (user : option User.t) (s : Session) : Prog unit :=
  if is_customer user && Nat.eqb (List.length (chatRooms s)) 0
     && negb (loading s)
  then
    room <- getOrCreateChatRoom user ;;
    match room with
    | Some _ => fetchChatRooms user
    | None => Ret tt
    end
  else if is_customer user && Nat.eqb (List.length (chatRooms s)) 1
          && match selectedChat s with Some _ => false | None => true end
  then perform (setSelectedChat (nth_error (chatRooms s) 0))
  else Ret tt.

(** An effect runs after a render, on the state of that render. *)
Definition after_render {S} (backend : Backend S)
    (effect : Session -> Prog unit) (w : World S) : World S :=
  snd (run backend (effect (session w)) w).

(** * Properties *)

Unset Implicit Arguments.

(** ** Programs and text *)

Lemma run_bind S A B (backend : Backend S) (p : Prog A) (f : A -> Prog B) :
  forall w,
    run backend (bind p f) w =
    run backend (f (fst (run backend p w))) (snd (run backend p w)).
Proof.
  induction p as [a | r k IH | e k IH | k IH]; intro w; simpl.
  - reflexivity.
  - destruct (backend r (remote w)) as [resp s]. apply IH.
  - apply IH.
  - apply IH.
Qed.

Lemma toasts_app h h' : toasts (h ++ h') = toasts h ++ toasts h'.
Proof. apply flat_map_app. Qed.

Lemma requests_app h h' : requests (h ++ h') = requests h ++ requests h'.
Proof. apply flat_map_app. Qed.

Lemma trimStart_blank (s : text) :
  forallb is_whitespace s = true -> trimStart s = [].
Proof.
  induction s as [| c s IH]; simpl; [reflexivity |].
  intro H. apply andb_true_iff in H. destruct H as [Hc Hs].
  rewrite Hc. auto.
Qed.

Lemma trim_blank (s : text) :
  forallb is_whitespace s = true -> trim s = [].
Proof.
  intro H. unfold trim. now rewrite (trimStart_blank s H).
Qed.

(** ** Control flow, whatever the remote service does *)

Section ControlFlow.

Variable S : Type.
Variable backend : Backend S.

(** C6. With no identity, or with a text that is empty or made of whitespace
    only, [sendMessage] does nothing at all: the world after the call is the
    world before it, so no request went out (no insert, no timestamp touch),
    no toast was raised and no state was set. *)
Theorem sendMessage_blank_does_nothing
    (user : option User.t) (chatRoomId : uuid) (message : text) (w : World S) :
  user = None \/ forallb is_whitespace message = true ->
  run backend (sendMessage user chatRoomId message) w = (tt, w).
Proof.
  intros [-> | H]; [reflexivity |].
  unfold sendMessage. rewrite (trim_blank message H).
  destruct user; reflexivity.
Qed.

(** C8. With no identity, or with an identity whose role is "customer",
    [updateChatStatus] returns at its guard: the world after the call is the
    world before it, so no update request went out. *)
Theorem updateChatStatus_customer_does_nothing
    (user : option User.t) (chatRoomId : uuid) (status : Status)
    (agentId : option uuid) (w : World S) :
  user = None \/ (exists u, user = Some u /\ User.role u = "customer") ->
  run backend (updateChatStatus user chatRoomId status agentId) w = (tt, w).
Proof.
  intros [-> | [u [-> Hrole]]]; [reflexivity |].
  unfold updateChatStatus. rewrite Hrole. reflexivity.
Qed.

(** C4. With an identity and a text that is not blank, [sendMessage] sends the
    insert of the message, raises the toast "Failed to send message" when the
    insert came back with an error, and then, in both cases, sends the update
    that sets the room's [updated_at] to the clock read after the insert.
    Nothing else happens. *)
Theorem sendMessage_touches_room_unconditionally
    (user : User.t) (chatRoomId : uuid) (message : text) (w : World S) :
  trim message <> [] ->
  let insert := message_insert user chatRoomId message in
  let touch := room_touch chatRoomId (clock w + 1)%N in
  let inserted := backend insert (remote w) in
  let touched := backend touch (snd inserted) in
  let w' := snd (run backend (sendMessage (Some user) chatRoomId message) w) in
  history w' =
    history w
    ++ [Awaited insert (error (fst inserted))]
    ++ match error (fst inserted) with
       | Some _ => [Performed (toast (destructive "Failed to send message"))]
       | None => []
       end
    ++ [Awaited touch (error (fst touched))]
  /\ remote w' = snd touched
  /\ session w' = session w.
Proof.
  intro Hne. unfold sendMessage, message_insert, room_touch.
  destruct (trim message) as [| c rest] eqn:E; [contradiction |].
  cbn.
  destruct (backend _ (remote w)) as [resp s]. cbn.
  destruct (error resp) as [e |]; cbn.
  - destruct (backend _ s) as [resp' s']. cbn.
    rewrite <- !app_assoc. auto.
  - destruct (backend _ s) as [resp' s']. cbn.
    rewrite <- !app_assoc. auto.
Qed.

(** C9. When the query of [fetchMessages] comes back with an error, the call
    is over after that one request: the React state (the message list
    included) is as before and the history gained no toast. *)
Theorem fetchMessages_failure_is_silent (chatRoomId : uuid) (w : World S) :
  let query :=
    SelectMessages (order messages_created_at true
                      (eq_ messages_chat_room_id chatRoomId select)) in
  let failure := error (fst (backend query (remote w))) in
  failure <> None ->
  let w' := snd (run backend (fetchMessages chatRoomId) w) in
  messages (session w') = messages (session w)
  /\ session w' = session w
  /\ toasts (history w') = toasts (history w)
  /\ history w' = history w ++ [Awaited query failure].
Proof.
  cbn. unfold fetchMessages. cbn.
  destruct (backend _ (remote w)) as [resp s]. cbn.
  destruct (error resp) as [e |]; [| congruence].
  intros _. cbn. rewrite toasts_app. cbn. rewrite app_nil_r. auto.
Qed.

(** C5, as the code has it.  With an identity present, a call of
    [fetchChatRooms] stores into the loading flag exactly once, the value
    [false], whether the query failed or not: the flag is [false] afterwards,
    and it went from [true] to [false] once when it was [true] before the call
    (and not at all when it was [false] already).  With no identity the call
    stores nothing into the flag, which stays as it was. *)
Theorem fetchChatRooms_clears_loading_once
    (user : option User.t) (w : World S) :
  let w' := snd (run backend (fetchChatRooms user) w) in
  let signed_in := match user with Some _ => true | None => false end in
  exists new,
    history w' = history w ++ new
    /\ loading_writes new = (if signed_in then [false] else [])
    /\ falls (loading (session w)) (loading_writes new)
       = (if signed_in && loading (session w) then 1 else 0)
    /\ loading (session w')
       = (if signed_in then false else loading (session w)).
Proof.
  cbn zeta. destruct user as [user |].
  - unfold fetchChatRooms, try_finally. cbn.
    destruct (backend _ (remote w)) as [resp s]. cbn.
    destruct (error resp) as [e |]; cbn.
    + eexists. split; [rewrite <- !app_assoc; reflexivity |].
      cbn. destruct (loading (session w)); auto.
    + eexists. split; [rewrite <- !app_assoc; reflexivity |].
      cbn. destruct (loading (session w)); auto.
  - exists []. cbn. rewrite app_nil_r. auto.
Qed.

End ControlFlow.

(** ** What a query selects *)

Section EvaluationFacts.

Variables Row Key Time : Type.
Variable text_of : Key -> Row -> option string.
Variable time_of : Time -> Row -> timestamp.

Lemma insert_by_perm (leb : Row -> Row -> bool) x l :
  Permutation (insert_by leb x l) (x :: l).
Proof.
  induction l as [| y l IH]; simpl; [reflexivity |].
  destruct (leb x y); [reflexivity |].
  rewrite IH. apply perm_swap.
Qed.

Lemma sort_by_perm (leb : Row -> Row -> bool) l :
  Permutation (sort_by leb l) l.
Proof.
  induction l as [| x l IH]; simpl; [reflexivity |].
  rewrite insert_by_perm. now constructor.
Qed.

Lemma insert_by_sorted (leb : Row -> Row -> bool) x l :
  (forall a b, leb a b = false -> leb b a = true) ->
  (forall a b c, leb a b = true -> leb b c = true -> leb a c = true) ->
  StronglySorted (fun a b => leb a b = true) l ->
  StronglySorted (fun a b => leb a b = true) (insert_by leb x l).
Proof.
  intros total trans. induction l as [| y l IH]; simpl; intro Hs.
  - repeat constructor.
  - inversion Hs as [| ? ? Hl Hy]; subst.
    destruct (leb x y) eqn:E.
    + constructor; [exact Hs |].
      constructor; [exact E |].
      eapply Forall_impl; [| exact Hy]. intros z Hz. now apply trans with y.
    + constructor; [now apply IH |].
      apply (Permutation_Forall (Permutation_sym (insert_by_perm leb x l))).
      constructor; [now apply total | exact Hy].
Qed.

Lemma sort_by_sorted (leb : Row -> Row -> bool) l :
  (forall a b, leb a b = false -> leb b a = true) ->
  (forall a b c, leb a b = true -> leb b c = true -> leb a c = true) ->
  StronglySorted (fun a b => leb a b = true) (sort_by leb l).
Proof.
  intros total trans. induction l as [| x l IH]; simpl.
  - constructor.
  - now apply insert_by_sorted.
Qed.

(** Ascending order on a time column puts the rows in non-decreasing order of
    that column. *)
Lemma sort_by_ascending (c : Time) l :
  StronglySorted (fun a b => (time_of c a <= time_of c b)%N)
                 (sort_by (before time_of (c, true)) l).
Proof.
  assert (H : StronglySorted
                (fun a b => before time_of (c, true) a b = true)
                (sort_by (before time_of (c, true)) l)).
  { apply sort_by_sorted; unfold before; simpl.
    - intros a b H. apply N.leb_gt in H. apply N.leb_le. lia.
    - intros a b d H1 H2. apply N.leb_le in H1, H2. apply N.leb_le. lia. }
  induction H as [| a l' Hs IH Ha]; constructor; [exact IH |].
  eapply Forall_impl; [| exact Ha].
  intros b Hb. unfold before in Hb. simpl in Hb. now apply N.leb_le.
Qed.

Lemma rows_of_perm (q : Query Key Time) table :
  Permutation (rows_of text_of time_of q table)
              (filter (matches text_of q) table).
Proof.
  unfold rows_of. destruct (ordering q); [apply sort_by_perm | reflexivity].
Qed.

End EvaluationFacts.

Lemma StronglySorted_map A B (f : A -> B) (R : B -> B -> Prop) l :
  StronglySorted (fun a b => R (f a) (f b)) l ->
  StronglySorted R (map f l).
Proof.
  induction 1 as [| a l Hs IH Ha]; simpl; constructor; [exact IH |].
  now apply Forall_map.
Qed.

Lemma matches_customer (uid : uuid) (r : Room.row) :
  matches room_text (eq_ rooms_customer_id uid select : RoomQuery) r
  = (Room.customer_id r =? uid).
Proof. unfold matches. simpl. apply andb_true_r. Qed.

Lemma matches_customer_ordered (uid : uuid) (r : Room.row)
    (o : RoomTime * bool) :
  matches room_text (eq_ rooms_customer_id uid (order (fst o) (snd o) select)) r
  = (Room.customer_id r =? uid).
Proof. unfold matches. simpl. apply andb_true_r. Qed.

Lemma matches_room (rid : uuid) (m : Msg.row) (o : MessageTime * bool) :
  matches message_text
          (order (fst o) (snd o) (eq_ messages_chat_room_id rid select)) m
  = (Msg.chat_room_id m =? rid).
Proof. unfold matches. simpl. apply andb_true_r. Qed.

Lemma filter_all A (l : list A) : filter (fun _ => true) l = l.
Proof. induction l; simpl; congruence. Qed.

(** The lookup of [getOrCreateChatRoom] selects the rooms of the customer, in
    the order of the table. *)
Lemma select_rooms_of_customer (uid : uuid) (db : Supabase) :
  select_rooms (eq_ rooms_customer_id uid select) db
  = rooms_of_customer uid db.
Proof.
  unfold select_rooms, rows_of, rooms_of_customer. simpl.
  apply filter_ext. intro r. apply matches_customer.
Qed.

(** ** What the hook shows *)

(** C1. When the query gets through, the room list [fetchChatRooms] stores is,
    for an identity of role "customer", made of the rooms of the table whose
    [customer_id] is the identity's id, all of them and nothing else; for
    an identity of any other role it is made of all the rooms of the table. *)
Theorem fetchChatRooms_rooms_by_role (user : User.t) (w : World Supabase) :
  gets_through 0 (remote w) = true ->
  let db := remote w in
  let shown := fun r => transform (with_profiles db r) in
  let rooms :=
    chatRooms (session (snd (run supabase (fetchChatRooms (Some user)) w))) in
  (User.role user = "customer" ->
   Forall (fun c => ChatRoom.customer_id c = User.id user) rooms
   /\ Permutation rooms (map shown (rooms_of_customer (User.id user) db)))
  /\ (User.role user <> "customer" ->
      Permutation rooms (map shown (chat_rooms db))).
Proof.
  intro Hup. cbn zeta.
  unfold fetchChatRooms, try_finally. cbn.
  unfold supabase. rewrite Hup. cbn.
  rewrite map_map.
  split.
  - intro Hrole. rewrite Hrole. cbn.
    assert (P : Permutation
                  (select_rooms
                     (eq_ rooms_customer_id (User.id user)
                          (order rooms_updated_at false select))
                     (arrive (remote w)))
                  (rooms_of_customer (User.id user) (remote w))).
    { unfold select_rooms.
      etransitivity; [apply rows_of_perm |]. cbn.
      unfold rooms_of_customer.
      erewrite filter_ext; [reflexivity |].
      intro r. apply (matches_customer_ordered _ _ (rooms_updated_at, false)). }
    split.
    + apply Forall_map.
      apply (Permutation_Forall (Permutation_sym P)).
      unfold rooms_of_customer. apply Forall_forall. intros r Hr.
      apply filter_In in Hr. destruct Hr as [_ Hr]. cbn.
      now apply String.eqb_eq.
    + now apply Permutation_map.
  - intro Hrole. apply String.eqb_neq in Hrole. rewrite Hrole. cbn.
    apply Permutation_map.
    etransitivity; [apply sort_by_perm |].
    unfold matches. cbn. now rewrite filter_all.
Qed.

(** C7. When the query gets through, the message list [fetchMessages] stores
    is made of the messages of the table that belong to the room, all of them
    and nothing else, each creation time at most those after it. *)
Theorem fetchMessages_oldest_first (chatRoomId : uuid) (w : World Supabase) :
  gets_through 0 (remote w) = true ->
  let db := remote w in
  let shown :=
    messages (session (snd (run supabase (fetchMessages chatRoomId) w))) in
  StronglySorted
    (fun a b => (Msg.created_at (msg_row a) <= Msg.created_at (msg_row b))%N)
    shown
  /\ Permutation shown
       (map (with_sender db)
            (filter (fun m => Msg.chat_room_id m =? chatRoomId)
                    (chat_messages db))).
Proof.
  intro Hup. cbn zeta.
  unfold fetchMessages. cbn.
  unfold supabase. rewrite Hup. cbn.
  split.
  - apply StronglySorted_map. cbn.
    unfold select_messages, rows_of. cbn.
    apply (sort_by_ascending _ _ message_time messages_created_at).
  - apply Permutation_map.
    etransitivity; [apply sort_by_perm |].
    erewrite filter_ext; [reflexivity |].
    intro m. apply (matches_room _ _ (messages_created_at, true)).
Qed.

(** ** Finding or creating the customer's room *)

Lemma length_zeros n : String.length (zeros n) = n.
Proof. induction n; simpl; congruence. Qed.

Lemma gen_random_uuid_fresh (used : list uuid) :
  ~ In (gen_random_uuid used) used.
Proof.
  assert (H : forall u, In u used ->
                String.length u
                <= fold_right (fun u n => Nat.max (String.length u) n) 0 used).
  { induction used as [| v used IH]; simpl; [tauto |].
    intros u [-> | Hu]; [lia |]. specialize (IH u Hu). lia. }
  intro Hin. apply H in Hin. unfold gen_random_uuid in Hin.
  rewrite length_zeros in Hin. lia.
Qed.

(** What the lookup of [getOrCreateChatRoom] resolves to. *)
Lemma serve_lookup (uid : uuid) (db : Supabase) :
  serve (SelectRoomMaybeSingle (eq_ rooms_customer_id uid select)) (arrive db)
  = match rooms_of_customer uid db with
    | [] => (resolved None, arrive db)
    | [row] => (resolved (r := SelectRoomMaybeSingle
                                 (eq_ rooms_customer_id uid select))
                         (Some row), arrive db)
    | _ :: _ :: _ => (rejected MultipleRows, arrive db)
    end.
Proof.
  unfold serve. rewrite select_rooms_of_customer. reflexivity.
Qed.

Lemma lookup_none (uid : uuid) (db : Supabase) :
  rooms_of_customer uid db = [] ->
  exists resp,
    supabase (SelectRoomMaybeSingle (eq_ rooms_customer_id uid select)) db
    = (resp, arrive db) /\ data resp = None.
Proof.
  intro H. unfold supabase.
  destruct (gets_through 0 db); [| eexists; split; reflexivity].
  rewrite serve_lookup, H. eexists; split; reflexivity.
Qed.

Lemma lookup_found (uid : uuid) (db : Supabase) (r : Room.row) :
  data (fst (supabase (SelectRoomMaybeSingle
                         (eq_ rooms_customer_id uid select)) db)) = Some r ->
  gets_through 0 db = true /\ rooms_of_customer uid db = [r].
Proof.
  unfold supabase.
  destruct (gets_through 0 db); [| discriminate].
  rewrite serve_lookup.
  destruct (rooms_of_customer uid db) as [| a [| b l]]; cbn; try discriminate.
  intro H. injection H as ->. auto.
Qed.

Lemma lookup_one (uid : uuid) (db : Supabase) (r : Room.row) :
  gets_through 0 db = true ->
  rooms_of_customer uid db = [r] ->
  supabase (SelectRoomMaybeSingle (eq_ rooms_customer_id uid select)) db
  = (resolved (r := SelectRoomMaybeSingle (eq_ rooms_customer_id uid select))
              (Some r), arrive db).
Proof.
  intros Hup H. unfold supabase. rewrite Hup.
  now rewrite serve_lookup, H.
Qed.

Lemma gets_through_arrive n db :
  gets_through n (arrive db) = gets_through (S n) db.
Proof.
  unfold gets_through. cbn. destruct (outages db); [| reflexivity].
  now destruct n.
Qed.

(** C2. For an identity of role "customer": when the table holds no room of
    the customer and the insert gets through, [getOrCreateChatRoom] returns a
    room that was not in the table, of status "waiting" and with the
    identity's id as [customer_id], and the table holds it afterwards; when
    the lookup finds a room, that room is the customer's, it is returned, the
    table is as before and the lookup is the only request that went out. *)
Theorem getOrCreateChatRoom_finds_or_creates
    (user : User.t) (w : World Supabase) :
  User.role user = "customer" ->
  let db := remote w in
  let lookup :=
    SelectRoomMaybeSingle (eq_ rooms_customer_id (User.id user) select) in
  let out := run supabase (getOrCreateChatRoom (Some user)) w in
  (rooms_of_customer (User.id user) db = [] ->
   gets_through 1 db = true ->
   exists newRoom,
     fst out = Some newRoom
     /\ Room.status newRoom = "waiting"
     /\ Room.customer_id newRoom = User.id user
     /\ ~ In (Room.id newRoom) (map Room.id (chat_rooms db))
     /\ chat_rooms (remote (snd out)) = chat_rooms db ++ [newRoom])
  /\ (forall existingRoom,
        data (fst (supabase lookup db)) = Some existingRoom ->
        fst out = Some existingRoom
        /\ In existingRoom (rooms_of_customer (User.id user) db)
        /\ chat_rooms (remote (snd out)) = chat_rooms db
        /\ history (snd out) = history w ++ [Awaited lookup None]).
Proof.
  intro Hrole. cbn zeta. unfold getOrCreateChatRoom. rewrite Hrole. cbn.
  split.
  - intros Hnone Hup.
    destruct (lookup_none _ _ Hnone) as [resp [E Hdata]].
    rewrite E, Hdata. cbn.
    unfold supabase. rewrite gets_through_arrive, Hup.
    cbn. eexists. split; [reflexivity |].
    repeat split; try reflexivity.
    apply (gen_random_uuid_fresh (map Room.id (chat_rooms (remote w)))).
  - intros existingRoom Hfound.
    destruct (lookup_found _ _ _ Hfound) as [Hup Hone].
    rewrite (lookup_one _ _ _ Hup Hone). cbn.
    repeat split; try reflexivity.
    rewrite Hone. now left.
Qed.

(** X19. For an identity of role "customer" whose only room in the table is
    closed: when the lookup gets through, [getOrCreateChatRoom] returns that
    room; the one request that went out is the lookup, which filters on
    [customer_id] alone, and the table is as before: no room was created. *)
Theorem getOrCreateChatRoom_keeps_closed_room
    (user : User.t) (w : World Supabase) (onlyRoom : Room.row) :
  User.role user = "customer" ->
  rooms_of_customer (User.id user) (remote w) = [onlyRoom] ->
  Room.status onlyRoom = "closed" ->
  gets_through 0 (remote w) = true ->
  let out := run supabase (getOrCreateChatRoom (Some user)) w in
  fst out = Some onlyRoom
  /\ history (snd out)
     = history w
       ++ [Awaited (SelectRoomMaybeSingle
                      {| filters := [(rooms_customer_id, User.id user)];
                         ordering := None |}) None]
  /\ existsb is_insert (requests (history (snd out)))
     = existsb is_insert (requests (history w))
  /\ chat_rooms (remote (snd out)) = chat_rooms (remote w).
Proof.
  intros Hrole Hone _ Hup. cbn zeta.
  unfold getOrCreateChatRoom. rewrite Hrole. cbn.
  rewrite (lookup_one _ _ _ Hup Hone). cbn.
  repeat split; try reflexivity.
  rewrite requests_app, existsb_app. cbn. apply orb_false_r.
Qed.

(** C10, at a customer whose only room is closed, the lookup lost and the
    insert getting through: the lookup comes back with no room and its error
    is not looked at, so the call inserts a room and returns it, a room of
    status "waiting" that is not the closed one; the customer has two rooms
    afterwards. *)
Theorem getOrCreateChatRoom_closed_room_lost_lookup :
  let w := mounted (database [room_1; room_2] [true]) in
  let out := run supabase (getOrCreateChatRoom (Some zoe)) w in
  rooms_of_customer "zoe" (remote w) = [room_1]
  /\ Room.status room_1 = "closed"
  /\ fst out <> Some room_1
  /\ existsb is_insert (requests (history (snd out))) = true
  /\ exists created,
       fst out = Some created
       /\ Room.status created = "waiting"
       /\ Room.id created <> Room.id room_1
       /\ chat_rooms (remote (snd out)) = [room_1; room_2; created]
       /\ rooms_of_customer "zoe" (remote (snd out)) = [room_1; created].
Proof.
  cbn zeta. split; [reflexivity |]. split; [reflexivity |].
  split; [vm_compute; discriminate |]. split; [reflexivity |].
  eexists. split; [reflexivity |].
  split; [reflexivity |]. split; [vm_compute; discriminate |].
  split; reflexivity.
Qed.

(** ** Two calls in a row *)

Lemma reliable_gets_through n db :
  reliable db = true -> gets_through n db = true.
Proof.
  unfold reliable, gets_through. generalize (outages db). intro l.
  revert n. induction l as [| b l IH]; intros [| n] H; simpl in *; auto.
  - apply andb_true_iff in H. tauto.
  - apply andb_true_iff in H. apply IH. tauto.
Qed.

(** The run of [getOrCreateChatRoom] that creates a room, and the run that
    finds one. *)
Lemma getOrCreateChatRoom_run_created (user : User.t) (w : World Supabase) :
  User.role user = "customer" ->
  rooms_of_customer (User.id user) (remote w) = [] ->
  gets_through 1 (remote w) = true ->
  let values :=
    {| ins_customer_id := User.id user; ins_status := "waiting" |} in
  let db := arrive (arrive (remote w)) in
  exists h,
    run supabase (getOrCreateChatRoom (Some user)) w
    = (Some (new_room values db),
       {| remote := with_rooms (chat_rooms db ++ [new_room values db]) db;
          clock := (clock w + 1 + 1)%N;
          session := session w;
          history := h |}).
Proof.
  intros Hrole Hrooms H1. cbn zeta.
  unfold getOrCreateChatRoom. rewrite Hrole. cbn.
  destruct (lookup_none _ _ Hrooms) as [resp [E Hdata]].
  rewrite E, Hdata. cbn.
  unfold supabase. rewrite gets_through_arrive, H1. cbn.
  eexists. reflexivity.
Qed.

Lemma getOrCreateChatRoom_run_found (user : User.t) (w : World Supabase) r :
  User.role user = "customer" ->
  rooms_of_customer (User.id user) (remote w) = [r] ->
  gets_through 0 (remote w) = true ->
  exists h,
    run supabase (getOrCreateChatRoom (Some user)) w
    = (Some r,
       {| remote := arrive (remote w);
          clock := (clock w + 1)%N;
          session := session w;
          history := h |}).
Proof.
  intros Hrole Hrooms H0.
  unfold getOrCreateChatRoom. rewrite Hrole. cbn.
  rewrite (lookup_one _ _ _ H0 Hrooms). cbn.
  eexists. reflexivity.
Qed.

(** X18. With at most one room of the customer in the table and every request
    getting through, the second call returns the room the first call found or
    created. *)
Lemma getOrCreateChatRoom_twice_one_room (user : User.t) (w : World Supabase) :
  User.role user = "customer" ->
  List.length (rooms_of_customer (User.id user) (remote w)) <= 1 ->
  reliable (remote w) = true ->
  same_room_twice supabase user w.
Proof.
  intros Hrole Hlen Hrel. unfold same_room_twice. cbn zeta.
  pose proof (reliable_gets_through 0 _ Hrel) as H0.
  pose proof (reliable_gets_through 1 _ Hrel) as H1.
  pose proof (reliable_gets_through 2 _ Hrel) as H2.
  destruct (rooms_of_customer (User.id user) (remote w))
    as [| r [| r' l]] eqn:Hrooms.
  - destruct (getOrCreateChatRoom_run_created user w Hrole Hrooms H1)
      as [h E].
    cbn zeta in E. rewrite E. cbn [fst snd].
    eexists. split; [reflexivity |].
    match goal with
    | |- fst (run _ _ ?w1) = _ =>
      destruct (getOrCreateChatRoom_run_found user w1
                  (new_room {| ins_customer_id := User.id user;
                               ins_status := "waiting" |}
                            (arrive (arrive (remote w)))) Hrole)
        as [h' E']
    end.
    + unfold rooms_of_customer in *. cbn.
      rewrite filter_app, Hrooms. cbn. now rewrite String.eqb_refl.
    + cbn [remote]. unfold gets_through in *. cbn.
      destruct (outages (remote w)) as [| a [| b t]]; auto.
    + now rewrite E'.
  - destruct (getOrCreateChatRoom_run_found user w r Hrole Hrooms H0)
      as [h E].
    rewrite E. cbn [fst snd].
    exists r. split; [reflexivity |].
    match goal with
    | |- fst (run _ _ ?w1) = _ =>
      destruct (getOrCreateChatRoom_run_found user w1 r Hrole) as [h' E']
    end.
    + exact Hrooms.
    + cbn [remote]. now rewrite gets_through_arrive.
    + now rewrite E'.
  - simpl in Hlen. lia.
Qed.

(** C3, at a table that holds two rooms of the customer, every request
    getting through: the lookup of each call comes back with no room (several
    rows for [maybeSingle]), so each call creates a room and returns it; the
    two calls return different rooms, and the customer ends with four. *)
Theorem getOrCreateChatRoom_twice_two_rooms :
  let w := mounted (database [room_1; room_2; room_3] []) in
  let first := run supabase (getOrCreateChatRoom (Some zoe)) w in
  let second := run supabase (getOrCreateChatRoom (Some zoe)) (snd first) in
  option_map Room.id (fst first) = Some "0000000"
  /\ option_map Room.id (fst second) = Some "00000000"
  /\ ~ same_room_twice supabase zoe w
  /\ List.length (rooms_of_customer "zoe" (remote (snd second))) = 4.
Proof.
  cbn zeta. repeat split; try reflexivity.
  intros [r [Hfirst Hsecond]].
  vm_compute in Hfirst, Hsecond. congruence.
Qed.

(** ** The loading flag without an identity *)

(** C5 as stated fails when nobody is signed in: [fetchChatRooms] returns
    before its [try], nothing is stored into the loading flag, and a flag that
    was [true] stays [true]. *)
Lemma fetchChatRooms_without_identity_keeps_loading :
  let w := mounted (database [room_1] []) in
  ~ loading_falls_once supabase None w
  /\ loading (session (snd (run supabase (fetchChatRooms None) w))) = true.
Proof.
  cbn zeta. split; [| reflexivity].
  intros [new [Hnew Hfalls]]. cbn in Hnew. subst new. discriminate.
Qed.

(** ** The statements at the sample data *)

Lemma fetchChatRooms_rooms_by_role_witness :
  let w := mounted (database [room_1; room_2; room_3] []) in
  let seen := fun user =>
    chatRooms (session (snd (run supabase (fetchChatRooms (Some user)) w))) in
  gets_through 0 (remote w) = true
  /\ User.role zoe = "customer"
  /\ Forall (fun c => ChatRoom.customer_id c = "zoe") (seen zoe)
  /\ User.role sam <> "customer"
  /\ Permutation (seen sam)
       (map (fun r => transform (with_profiles (remote w) r))
            [room_1; room_2; room_3]).
Proof.
  cbn zeta.
  split; [reflexivity |]. split; [reflexivity |].
  split.
  - apply (proj1 (fetchChatRooms_rooms_by_role
                    zoe (mounted (database [room_1; room_2; room_3] []))
                    eq_refl) eq_refl).
  - split; [discriminate |].
    apply (proj2 (fetchChatRooms_rooms_by_role
                    sam (mounted (database [room_1; room_2; room_3] []))
                    eq_refl)).
    discriminate.
Defined.

Lemma getOrCreateChatRoom_finds_or_creates_witness :
  let none := mounted (database [room_2] []) in
  let one := mounted (database [room_1; room_2] []) in
  User.role zoe = "customer"
  /\ rooms_of_customer "zoe" (remote none) = []
  /\ gets_through 1 (remote none) = true
  /\ (exists newRoom,
        fst (run supabase (getOrCreateChatRoom (Some zoe)) none) = Some newRoom
        /\ Room.status newRoom = "waiting"
        /\ Room.customer_id newRoom = "zoe"
        /\ ~ In (Room.id newRoom) ["room-2"]
        /\ chat_rooms (remote (snd (run supabase
                                      (getOrCreateChatRoom (Some zoe)) none)))
           = [room_2; newRoom])
  /\ fst (run supabase (getOrCreateChatRoom (Some zoe)) one) = Some room_1.
Proof.
  cbn zeta.
  split; [reflexivity |]. split; [reflexivity |]. split; [reflexivity |].
  split.
  - apply (proj1 (getOrCreateChatRoom_finds_or_creates
                    zoe (mounted (database [room_2] [])) eq_refl)
                 eq_refl eq_refl).
  - apply (proj2 (getOrCreateChatRoom_finds_or_creates
                    zoe (mounted (database [room_1; room_2] [])) eq_refl)
                 room_1 eq_refl).
Defined.

Lemma sendMessage_touches_room_unconditionally_witness :
  let w := mounted (database [room_1] [true]) in
  trim (js " hi ") <> []
  /\ history (snd (run supabase (sendMessage (Some zoe) "room-1" (js " hi ")) w))
     = [Awaited (message_insert zoe "room-1" (js " hi ")) (Some FetchFailed);
        Performed (toast (destructive "Failed to send message"));
        Awaited (room_touch "room-1" 101%N) None].
Proof.
  cbn zeta.
  assert (H : trim (js " hi ") <> []) by (vm_compute; discriminate).
  split; [exact H |].
  apply (proj1 (sendMessage_touches_room_unconditionally
                  Supabase supabase zoe "room-1" (js " hi ")
                  (mounted (database [room_1] [true])) H)).
Defined.

Lemma sendMessage_blank_does_nothing_witness :
  let w := mounted (database [room_1] []) in
  let blank := [32; 9; 160; 8195; 10]%N in
  (Some zoe = None \/ forallb is_whitespace blank = true)
  /\ run supabase (sendMessage (Some zoe) "room-1" blank) w = (tt, w).
Proof.
  cbn zeta.
  assert (H : Some zoe = None
              \/ forallb is_whitespace [32; 9; 160; 8195; 10]%N = true)
    by (right; reflexivity).
  split; [exact H |].
  apply (sendMessage_blank_does_nothing Supabase supabase _ _ _ _ H).
Defined.

Lemma fetchMessages_oldest_first_witness :
  let w := mounted (database [room_1] []) in
  gets_through 0 (remote w) = true
  /\ map msg_row
         (messages (session (snd (run supabase (fetchMessages "room-1") w))))
     = [welcome; hello]
  /\ StronglySorted
       (fun a b => (Msg.created_at (msg_row a) <= Msg.created_at (msg_row b))%N)
       (messages (session (snd (run supabase (fetchMessages "room-1") w)))).
Proof.
  cbn zeta.
  split; [reflexivity |]. split; [reflexivity |].
  apply (proj1 (fetchMessages_oldest_first
                  "room-1" (mounted (database [room_1] [])) eq_refl)).
Defined.

Lemma updateChatStatus_customer_does_nothing_witness :
  let w := mounted (database [room_1] []) in
  (Some zoe = None \/ (exists u, Some zoe = Some u /\ User.role u = "customer"))
  /\ run supabase (updateChatStatus (Some zoe) "room-1" closed (Some "sam")) w
     = (tt, w).
Proof.
  cbn zeta.
  assert (H : Some zoe = None
              \/ (exists u, Some zoe = Some u /\ User.role u = "customer"))
    by (right; exists zoe; split; reflexivity).
  split; [exact H |].
  apply (updateChatStatus_customer_does_nothing Supabase supabase _ _ _ _ _ H).
Defined.

Lemma fetchMessages_failure_is_silent_witness :
  let w := mounted (database [room_1] [true]) in
  let w' := snd (run supabase (fetchMessages "room-1") w) in
  gets_through 0 (remote w) = false
  /\ messages (session w') = messages (session w)
  /\ toasts (history w') = [].
Proof.
  cbn zeta.
  split; [reflexivity |].
  assert (H : Some FetchFailed <> None) by discriminate.
  pose proof (fetchMessages_failure_is_silent
                Supabase supabase "room-1"
                (mounted (database [room_1] [true])) H) as P.
  split; [exact (proj1 P) | exact (proj1 (proj2 (proj2 P)))].
Defined.

Lemma getOrCreateChatRoom_keeps_closed_room_witness :
  let w := mounted (database [room_1; room_2] []) in
  User.role zoe = "customer"
  /\ rooms_of_customer "zoe" (remote w) = [room_1]
  /\ Room.status room_1 = "closed"
  /\ gets_through 0 (remote w) = true
  /\ fst (run supabase (getOrCreateChatRoom (Some zoe)) w) = Some room_1
  /\ chat_rooms (remote (snd (run supabase (getOrCreateChatRoom (Some zoe)) w)))
     = [room_1; room_2].
Proof.
  cbn zeta.
  pose proof (getOrCreateChatRoom_keeps_closed_room
                zoe (mounted (database [room_1; room_2] [])) room_1
                eq_refl eq_refl eq_refl eq_refl) as P.
  do 4 (split; [reflexivity |]).
  split; [exact (proj1 P) | exact (proj2 (proj2 (proj2 P)))].
Defined.

(** * Further properties of the hook *)

(** ** Text *)

Lemma trimStart_all_blank (s : text) :
  trimStart s = [] -> forallb is_whitespace s = true.
Proof.
  induction s as [| c s IH]; simpl; [reflexivity |].
  destruct (is_whitespace c); [exact IH | discriminate].
Qed.

Lemma trimStart_head (s : text) c rest :
  trimStart s = c :: rest -> is_whitespace c = false.
Proof.
  induction s as [| d s IH]; simpl; [discriminate |].
  destruct (is_whitespace d) eqn:E; [exact IH |].
  intro H. injection H as -> _. exact E.
Qed.

(** [trimStart] drops a prefix. *)
Lemma trimStart_suffix (s : text) : exists pre, s = pre ++ trimStart s.
Proof.
  induction s as [| c s [pre IH]]; simpl.
  - now exists [].
  - destruct (is_whitespace c).
    + exists (c :: pre). simpl. now f_equal.
    + now exists [].
Qed.

Lemma forallb_rev A (f : A -> bool) l : forallb f (rev l) = forallb f l.
Proof.
  induction l as [| a l IH]; simpl; [reflexivity |].
  rewrite forallb_app, IH. simpl. rewrite andb_true_r. apply andb_comm.
Qed.

Lemma trim_all_blank (s : text) :
  trim s = [] -> forallb is_whitespace s = true.
Proof.
  unfold trim. intro H.
  apply (f_equal (@rev N)) in H. rewrite rev_involutive in H. simpl in H.
  apply trimStart_all_blank in H. rewrite forallb_rev in H.
  destruct (trimStart s) as [| c rest] eqn:E.
  - now apply trimStart_all_blank.
  - apply trimStart_head in E. simpl in H. now rewrite E in H.
Qed.

(** What [trim] keeps neither starts nor ends with whitespace. *)
Lemma trim_ends (s : text) c rest :
  trim s = c :: rest ->
  is_whitespace c = false /\ is_whitespace (last (c :: rest) c) = false.
Proof.
  unfold trim. intro H.
  destruct (trimStart (rev (trimStart s))) as [| d t] eqn:E; [discriminate |].
  pose proof (trimStart_head _ _ _ E) as Hd.
  destruct (trimStart_suffix (rev (trimStart s))) as [pre Hpre].
  rewrite E in Hpre.
  apply (f_equal (@rev N)) in Hpre. rewrite rev_involutive, rev_app_distr in Hpre.
  split.
  - (* the first kept character is the first one [trimStart s] keeps *)
    destruct (rev (d :: t)) as [| x l] eqn:Ex.
    + discriminate.
    + injection H as -> ->. simpl in Hpre.
      now apply (trimStart_head s c (rest ++ rev pre)).
  - rewrite <- H. simpl. now rewrite last_last.
Qed.

(** ** Control flow of the other paths, whatever the remote service does *)

Section HookFlow.

Variable S : Type.
Variable backend : Backend S.

(** X1. When the query of [fetchChatRooms] comes back with an error, the call
    raises the toast "Failed to load chat rooms", once, leaves the room list,
    the selection and the messages as they were, and clears the loading
    flag. *)
Theorem fetchChatRooms_failure_reported (user : User.t) (w : World S) :
  error (fst (backend (SelectRooms (rooms_query user)) (remote w))) <> None ->
  let w' := snd (run backend (fetchChatRooms (Some user)) w) in
  toasts (history w')
  = toasts (history w) ++ [destructive "Failed to load chat rooms"]
  /\ chatRooms (session w') = chatRooms (session w)
  /\ selectedChat (session w') = selectedChat (session w)
  /\ messages (session w') = messages (session w)
  /\ loading (session w') = false.
Proof.
  cbn zeta. unfold fetchChatRooms, try_finally, rooms_query. cbn.
  destruct (backend _ (remote w)) as [[d [e |]] s]; cbn; [| congruence].
  intros _. rewrite !toasts_app. cbn. rewrite !app_nil_r. auto.
Qed.

(** X2. With an identity, [sendMessage] leaves the world as it is exactly
    when the text is empty or made of whitespace only: any other text sends
    the insert and the touch of the room. *)
Theorem sendMessage_sends_iff_text
    (user : User.t) (chatRoomId : uuid) (message : text) (w : World S) :
  (run backend (sendMessage (Some user) chatRoomId message) w = (tt, w)
   <-> forallb is_whitespace message = true)
  /\ (forallb is_whitespace message = false ->
      requests (history
                  (snd (run backend
                          (sendMessage (Some user) chatRoomId message) w)))
      = requests (history w)
        ++ [message_insert user chatRoomId message;
            room_touch chatRoomId (clock w + 1)%N]).
Proof.
  assert (Hsend : trim message <> [] ->
            requests (history
                        (snd (run backend
                                (sendMessage (Some user) chatRoomId message) w)))
            = requests (history w)
              ++ [message_insert user chatRoomId message;
                  room_touch chatRoomId (clock w + 1)%N]).
  { intro Hne. unfold sendMessage, message_insert, room_touch.
    destruct (trim message) as [| c rest] eqn:E; [contradiction |].
    cbn. destruct (backend _ (remote w)) as [resp s]. cbn.
    destruct (error resp) as [e |]; cbn;
      destruct (backend _ s) as [resp' s']; cbn;
      rewrite !requests_app; cbn; now rewrite <- !app_assoc. }
  split; [split |].
  - intro Hrun.
    destruct (forallb is_whitespace message) eqn:B; [reflexivity |].
    assert (Hne : trim message <> []).
    { intro E. apply trim_all_blank in E. congruence. }
    apply Hsend in Hne. rewrite Hrun in Hne. cbn in Hne.
    apply (f_equal (@List.length Request)) in Hne.
    rewrite length_app in Hne. cbn in Hne. lia.
  - intro Hblank. unfold sendMessage. now rewrite (trim_blank message Hblank).
  - intro Hsome. apply Hsend.
    intro E. apply trim_all_blank in E. congruence.
Qed.

(** X3. [updateChatStatus] by an identity that is not a customer sends one
    request, the update of the room's status (with [agent_id] only when an
    agent id that is not the empty string was given, and without
    [updated_at]); it raises "Failed to update chat status" exactly when the
    update came back with an error, and sets no React state. *)
Theorem updateChatStatus_staff_request
    (user : User.t) (chatRoomId : uuid) (status : Status)
    (agentId : option uuid) (w : World S) :
  User.role user <> "customer" ->
  let update := status_update chatRoomId status agentId in
  let failure := error (fst (backend update (remote w))) in
  let w' :=
    snd (run backend
           (updateChatStatus (Some user) chatRoomId status agentId) w) in
  history w'
  = history w
    ++ [Awaited update failure]
    ++ match failure with
       | Some _ =>
         [Performed (toast (destructive "Failed to update chat status"))]
       | None => []
       end
  /\ remote w' = snd (backend update (remote w))
  /\ session w' = session w.
Proof.
  intro Hrole. apply String.eqb_neq in Hrole. cbn zeta.
  unfold updateChatStatus, status_update. rewrite Hrole.
  destruct agentId as [a |]; [destruct (truthy a) |]; cbn;
    destruct (backend _ (remote w)) as [resp s]; cbn;
    destruct (error resp) as [e |]; cbn;
    rewrite <- ?app_assoc, ?app_nil_r; auto.
Qed.

(** X4. Without an identity, or with an identity that is not a customer,
    [getOrCreateChatRoom] returns [null] and does nothing. *)
Theorem getOrCreateChatRoom_not_customer
    (user : option User.t) (w : World S) :
  is_customer user = false ->
  run backend (getOrCreateChatRoom user) w = (None, w).
Proof.
  unfold is_customer, getOrCreateChatRoom.
  destruct user as [u |]; [| reflexivity].
  now intros ->.
Qed.

(** X5. For a customer, when the lookup of [getOrCreateChatRoom] brings no
    room and the insert comes back with an error, the call returns [null]
    and raises the toast "Failed to create chat room", once; it sets no React
    state. *)
Theorem getOrCreateChatRoom_insert_failure (user : User.t) (w : World S) :
  User.role user = "customer" ->
  let lookup :=
    SelectRoomMaybeSingle (eq_ rooms_customer_id (User.id user) select) in
  let insert :=
    InsertRoomSingle {| ins_customer_id := User.id user;
                        ins_status := "waiting" |} in
  let looked := backend lookup (remote w) in
  let inserted := backend insert (snd looked) in
  data (fst looked) = None ->
  error (fst inserted) <> None ->
  let out := run backend (getOrCreateChatRoom (Some user)) w in
  fst out = None
  /\ toasts (history (snd out))
     = toasts (history w) ++ [destructive "Failed to create chat room"]
  /\ requests (history (snd out)) = requests (history w) ++ [lookup; insert]
  /\ session (snd out) = session w.
Proof.
  intro Hrole. cbn zeta. unfold getOrCreateChatRoom. rewrite Hrole. cbn.
  destruct (backend _ (remote w)) as [resp s]. cbn.
  intro Hdata. rewrite Hdata.
  cbn. destruct (backend _ s) as [resp' s']. cbn.
  destruct (error resp') as [e |]; [| congruence].
  intros _. cbn.
  rewrite !toasts_app, !requests_app. cbn.
  rewrite <- !app_assoc, !app_nil_r. auto.
Qed.

(** What a notification does to the message list. *)
Lemma receive_messages (user : User.t) (m : Message) (w : World S) :
  messages (session (receive backend user m w)) = messages (session w) ++ [m].
Proof.
  unfold receive, onMessageInsert, fetchChatRooms, try_finally.
  destruct (Msg.sender_id (msg_row m) =? User.id user); cbn;
    destruct (backend _ (remote w)) as [[d [e |]] s]; reflexivity.
Qed.

(** X6. A notification of a new message puts the message at the end of the
    local list, raises the toast "New Message" exactly when the sender is not
    the identity, and refreshes the room list: the only other toast there can
    be is the one of a failed refresh.  The selection is kept and the loading
    flag is cleared. *)
Theorem receive_appends_and_notifies
    (user : User.t) (m : Message) (w : World S) :
  let refresh := backend (SelectRooms (rooms_query user)) (remote w) in
  let w' := receive backend user m w in
  messages (session w') = messages (session w) ++ [m]
  /\ toasts (history w')
     = toasts (history w)
       ++ (if Msg.sender_id (msg_row m) =? User.id user
           then [] else [newMessageToast])
       ++ match error (fst refresh) with
          | Some _ => [destructive "Failed to load chat rooms"]
          | None => []
          end
  /\ requests (history w')
     = requests (history w) ++ [SelectRooms (rooms_query user)]
  /\ selectedChat (session w') = selectedChat (session w)
  /\ loading (session w') = false.
Proof.
  cbn zeta. split; [apply receive_messages |].
  unfold receive, onMessageInsert, fetchChatRooms, try_finally, rooms_query.
  destruct (Msg.sender_id (msg_row m) =? User.id user); cbn;
    destruct (backend _ (remote w)) as [[d [e |]] s]; cbn;
    rewrite !toasts_app, !requests_app; cbn;
    rewrite <- ?app_assoc, ?app_nil_r; auto.
Qed.

(** X7. Notifications that arrive one after the other end up in the local
    list in the order of their arrival, after what the list held, whatever
    the refreshes of the room list do. *)
Theorem receive_all_in_arrival_order
    (user : User.t) (arrivals : list Message) (w : World S) :
  messages (session (receive_all backend user arrivals w))
  = messages (session w) ++ arrivals.
Proof.
  unfold receive_all. revert w.
  induction arrivals as [| m l IH]; intro w; simpl.
  - now rewrite app_nil_r.
  - rewrite IH, receive_messages. now rewrite <- app_assoc.
Qed.

(** X8. The effect "Auto-create/select" does nothing at all when the identity
    is not a customer, when the room list is empty but still loading, when
    the list holds two rooms or more, and when it holds one room and a room
    is selected: in particular it sends a request only for a customer whose
    list is empty and loaded. *)
Theorem autoProvision_idle (user : option User.t) (s : Session) (w : World S) :
  is_customer user = false
  \/ (chatRooms s = [] /\ loading s = true)
  \/ 2 <= List.length (chatRooms s)
  \/ (List.length (chatRooms s) = 1 /\ selectedChat s <> None) ->
  run backend (autoProvision user s) w = (tt, w).
Proof.
  unfold autoProvision.
  intros [-> | [[-> ->] | [H | [-> H]]]]; cbn.
  - reflexivity.
  - now rewrite !andb_false_r.
  - destruct (chatRooms s) as [| a [| b l]]; cbn in *; try lia.
    now rewrite !andb_false_r.
  - rewrite !andb_false_r. cbn.
    destruct (selectedChat s); [| congruence].
    now rewrite !andb_false_r.
Qed.

(** X9. For a customer whose room list holds exactly one room while no room
    is selected, the effect "Auto-create/select" selects that room; it sends
    no request and sets nothing else. *)
Theorem autoProvision_selects_only_room
    (user : option User.t) (only : ChatRoom.t) (w : World S) :
  is_customer user = true ->
  chatRooms (session w) = [only] ->
  selectedChat (session w) = None ->
  let w' := after_render backend (autoProvision user) w in
  selectedChat (session w') = Some only
  /\ chatRooms (session w') = [only]
  /\ messages (session w') = messages (session w)
  /\ loading (session w') = loading (session w)
  /\ remote w' = remote w
  /\ history w' = history w ++ [Performed (setSelectedChat (Some only))].
Proof.
  intros Hc Hrooms Hsel. cbn zeta.
  unfold after_render, autoProvision. rewrite Hc, Hrooms, Hsel. cbn.
  rewrite Hrooms. repeat split; reflexivity.
Qed.

End HookFlow.

(** ** The other paths against the relational store *)

Section EvaluationOrder.

Variables Row Time : Type.
Variable time_of : Time -> Row -> timestamp.

(** Descending order on a time column puts the rows in non-increasing order
    of that column. *)
Lemma sort_by_descending (c : Time) l :
  StronglySorted (fun a b => (time_of c b <= time_of c a)%N)
                 (sort_by (before time_of (c, false)) l).
Proof.
  assert (H : StronglySorted
                (fun a b => before time_of (c, false) a b = true)
                (sort_by (before time_of (c, false)) l)).
  { apply sort_by_sorted; unfold before; simpl.
    - intros a b H. apply N.leb_gt in H. apply N.leb_le. lia.
    - intros a b d H1 H2. apply N.leb_le in H1, H2. apply N.leb_le. lia. }
  induction H as [| a l' Hs IH Ha]; constructor; [exact IH |].
  eapply Forall_impl; [| exact Ha].
  intros b Hb. unfold before in Hb. simpl in Hb. now apply N.leb_le.
Qed.

End EvaluationOrder.

(** The run of [fetchChatRooms] whose query gets through. *)
Lemma fetchChatRooms_run (user : User.t) (w : World Supabase) :
  gets_through 0 (remote w) = true ->
  exists h,
    run supabase (fetchChatRooms (Some user)) w
    = (tt,
       {| remote := arrive (remote w);
          clock := (clock w + 1)%N;
          session :=
            {| chatRooms :=
                 map transform
                     (map (with_profiles (remote w))
                          (select_rooms (rooms_query user) (remote w)));
               selectedChat := selectedChat (session w);
               messages := messages (session w);
               loading := false |};
          history := h |}).
Proof.
  intro Hup. unfold fetchChatRooms, try_finally, rooms_query. cbn.
  unfold supabase. rewrite Hup. cbn.
  eexists. reflexivity.
Qed.

(** The run of [fetchMessages] whose query gets through. *)
Lemma fetchMessages_run (chatRoomId : uuid) (w : World Supabase) :
  gets_through 0 (remote w) = true ->
  messages (session (snd (run supabase (fetchMessages chatRoomId) w)))
  = map (with_sender (remote w))
        (select_messages
           (order messages_created_at true
                  (eq_ messages_chat_room_id chatRoomId select))
           (remote w)).
Proof.
  intro Hup. unfold fetchMessages. cbn.
  unfold supabase. rewrite Hup. reflexivity.
Qed.

(** X10. When the query gets through, the room list [fetchChatRooms] stores
    has the most recently updated room first: every room was updated at
    least as late as the rooms after it. *)
Theorem fetchChatRooms_most_recent_first (user : User.t) (w : World Supabase) :
  gets_through 0 (remote w) = true ->
  StronglySorted
    (fun a b => (ChatRoom.updated_at b <= ChatRoom.updated_at a)%N)
    (chatRooms (session (snd (run supabase (fetchChatRooms (Some user)) w)))).
Proof.
  intro Hup. destruct (fetchChatRooms_run user w Hup) as [h E].
  rewrite E. cbn. rewrite map_map.
  apply StronglySorted_map. cbn.
  unfold rooms_query, select_rooms, rows_of.
  destruct (User.role user =? "customer"); cbn;
    apply (sort_by_descending _ _ room_time rooms_updated_at).
Qed.

Lemma last_cons_default A (a : A) l d d' :
  last (a :: l) d = last (a :: l) d'.
Proof.
  revert a. induction l as [| x l IH]; intro a; [reflexivity |].
  change (last (x :: l) d = last (x :: l) d'). apply IH.
Qed.

(** The store after a [sendMessage] whose insert got through. *)
Lemma sendMessage_remote (user : User.t) (chatRoomId : uuid) (message : text)
    (w : World Supabase) :
  trim message <> [] ->
  gets_through 0 (remote w) = true ->
  let db' :=
    remote (snd (run supabase (sendMessage (Some user) chatRoomId message) w)) in
  chat_messages db'
  = chat_messages (remote w) ++ [sent user chatRoomId message (remote w)]
  /\ profiles db' = profiles (remote w)
  /\ outages db' = tl (tl (outages (remote w))).
Proof.
  intros Hne Hup. cbn zeta. unfold sendMessage, sent.
  destruct (trim message) as [| c rest] eqn:E; [contradiction |].
  cbn. unfold supabase. rewrite Hup. cbn.
  match goal with
  | |- context [gets_through 0 ?d] => destruct (gets_through 0 d)
  end; cbn; auto.
Qed.

(** X11. When the insert of [sendMessage] gets through, the table of
    messages gains one row and keeps the others: the new row belongs to the
    room, has the identity as sender and the trimmed text as body, a body that
    neither starts nor ends with whitespace, and its id is new. *)
Theorem sendMessage_stores_trimmed_text
    (user : User.t) (chatRoomId : uuid) (message : text) (w : World Supabase) :
  trim message <> [] ->
  gets_through 0 (remote w) = true ->
  let w' := snd (run supabase (sendMessage (Some user) chatRoomId message) w) in
  exists stored,
    chat_messages (remote w') = chat_messages (remote w) ++ [stored]
    /\ Msg.chat_room_id stored = chatRoomId
    /\ Msg.sender_id stored = User.id user
    /\ Msg.message stored = trim message
    /\ is_whitespace (hd 32%N (Msg.message stored)) = false
    /\ is_whitespace (last (Msg.message stored) 32%N) = false
    /\ ~ In (Msg.id stored) (map Msg.id (chat_messages (remote w))).
Proof.
  intros Hne Hup. cbn zeta.
  destruct (sendMessage_remote user chatRoomId message w Hne Hup) as [Hm _].
  exists (sent user chatRoomId message (remote w)).
  split; [exact Hm |]. unfold sent. cbn.
  destruct (trim message) as [| c rest] eqn:E; [contradiction |].
  destruct (trim_ends message c rest E) as [Hc Hl].
  repeat split; auto.
  - now rewrite (last_cons_default _ c rest 32%N c).
  - apply (gen_random_uuid_fresh (map Msg.id (chat_messages (remote w)))).
Qed.

(** X12. A message sent and then fetched is there: when the insert of
    [sendMessage] and the query of the [fetchMessages] that follows get
    through, the local list holds a message of the room with the identity as
    sender and the trimmed text as body. *)
Theorem sendMessage_then_fetchMessages
    (user : User.t) (chatRoomId : uuid) (message : text) (w : World Supabase) :
  trim message <> [] ->
  gets_through 0 (remote w) = true ->
  gets_through 2 (remote w) = true ->
  let w1 := snd (run supabase (sendMessage (Some user) chatRoomId message) w) in
  let w2 := snd (run supabase (fetchMessages chatRoomId) w1) in
  exists m,
    In m (messages (session w2))
    /\ Msg.chat_room_id (msg_row m) = chatRoomId
    /\ Msg.sender_id (msg_row m) = User.id user
    /\ Msg.message (msg_row m) = trim message.
Proof.
  intros Hne Hup Hup2. cbn zeta.
  destruct (sendMessage_remote user chatRoomId message w Hne Hup)
    as [Hm [_ Ho]].
  set (w1 := snd (run supabase (sendMessage (Some user) chatRoomId message) w))
    in *.
  assert (H1 : gets_through 0 (remote w1) = true).
  { revert Hup2. unfold gets_through. rewrite Ho.
    destruct (outages (remote w)) as [| a [| b t]]; auto. }
  rewrite (fetchMessages_run chatRoomId w1 H1).
  exists (with_sender (remote w1) (sent user chatRoomId message (remote w))).
  split; [| repeat split].
  apply in_map.
  unfold select_messages.
  apply (Permutation_in _
           (Permutation_sym (rows_of_perm _ _ _ message_text message_time
                                          _ (chat_messages (remote w1))))).
  apply filter_In. split.
  - rewrite Hm. apply in_or_app. right. now left.
  - rewrite (matches_room _ _ (messages_created_at, true)). cbn.
    apply String.eqb_refl.
Qed.

(** X13. When the insert of [sendMessage] is lost and the update that follows
    gets through, no message is stored, the toast "Failed to send message" is
    raised, and the rooms with the given id still get the clock read after
    the insert as [updated_at]; the rest of these rooms and all other rooms
    are as before. *)
Theorem sendMessage_lost_insert_still_touches
    (user : User.t) (chatRoomId : uuid) (message : text) (w : World Supabase) :
  trim message <> [] ->
  gets_through 0 (remote w) = false ->
  gets_through 1 (remote w) = true ->
  let w' := snd (run supabase (sendMessage (Some user) chatRoomId message) w) in
  chat_messages (remote w') = chat_messages (remote w)
  /\ chat_rooms (remote w')
     = map (fun r =>
              if Room.id r =? chatRoomId
              then Room.make (Room.id r) (Room.customer_id r) (Room.agent_id r)
                             (Room.status r) (Room.created_at r)
                             (clock w + 1)%N
              else r)
           (chat_rooms (remote w))
  /\ toasts (history w')
     = toasts (history w) ++ [destructive "Failed to send message"].
Proof.
  intros Hne H0 H1. cbn zeta. unfold sendMessage.
  destruct (trim message) as [| c rest] eqn:E; [contradiction |].
  cbn. unfold supabase. rewrite H0. cbn.
  rewrite gets_through_arrive, H1. cbn.
  split; [reflexivity |]. split.
  - apply map_ext. intro r. rewrite andb_true_r.
    destruct (Room.id r =? chatRoomId); reflexivity.
  - rewrite !toasts_app. cbn. now rewrite !app_nil_r.
Qed.

(** X14. When the update of [updateChatStatus] by an identity that is not a
    customer gets through, the rooms with the given id take the new status,
    and the agent when an agent id that is not the empty string was given;
    their other columns ([updated_at] included), the other rooms and the
    messages are as before, and no toast is raised. *)
Theorem updateChatStatus_staff_effect
    (user : User.t) (chatRoomId : uuid) (status : Status)
    (agentId : option uuid) (w : World Supabase) :
  User.role user <> "customer" ->
  gets_through 0 (remote w) = true ->
  let w' :=
    snd (run supabase
           (updateChatStatus (Some user) chatRoomId status agentId) w) in
  chat_rooms (remote w')
  = map (fun r =>
           if Room.id r =? chatRoomId
           then Room.make (Room.id r) (Room.customer_id r)
                          match agentId with
                          | Some a => if a =? "" then Room.agent_id r else Some a
                          | None => Room.agent_id r
                          end
                          (status_text status)
                          (Room.created_at r) (Room.updated_at r)
           else r)
        (chat_rooms (remote w))
  /\ chat_messages (remote w') = chat_messages (remote w)
  /\ toasts (history w') = toasts (history w).
Proof.
  intros Hrole Hup. apply String.eqb_neq in Hrole. cbn zeta.
  unfold updateChatStatus. rewrite Hrole. cbn.
  unfold supabase. rewrite Hup.
  destruct agentId as [a |]; [unfold truthy; destruct (a =? "") |]; cbn;
    (split; [| split; [reflexivity |
                       rewrite toasts_app; cbn; now rewrite app_nil_r]]);
    apply map_ext; intro r; rewrite andb_true_r;
    destruct (Room.id r =? chatRoomId); reflexivity.
Qed.

(** The lookup does not change the store. *)
Lemma lookup_remote (uid : uuid) (db : Supabase) :
  snd (supabase (SelectRoomMaybeSingle (eq_ rooms_customer_id uid select)) db)
  = arrive db.
Proof.
  unfold supabase. destruct (gets_through 0 db); [| reflexivity].
  rewrite serve_lookup.
  now destruct (rooms_of_customer uid db) as [| a [| b l]].
Qed.

(** X15. Whatever the identity and whichever requests are lost,
    [getOrCreateChatRoom] leaves the rows of [chat_rooms] as they are and adds
    at most one: either the table is as before, or it gained, at its end, the
    room the call returns, a room of the identity with status "waiting" and
    no agent.  Messages and profiles are not touched. *)
Theorem getOrCreateChatRoom_adds_at_most_one_room
    (user : option User.t) (w : World Supabase) :
  let out := run supabase (getOrCreateChatRoom user) w in
  (chat_rooms (remote (snd out)) = chat_rooms (remote w)
   \/ exists u r,
        user = Some u
        /\ fst out = Some r
        /\ chat_rooms (remote (snd out)) = chat_rooms (remote w) ++ [r]
        /\ Room.customer_id r = User.id u
        /\ Room.status r = "waiting"
        /\ Room.agent_id r = None)
  /\ chat_messages (remote (snd out)) = chat_messages (remote w)
  /\ profiles (remote (snd out)) = profiles (remote w).
Proof.
  cbn zeta. unfold getOrCreateChatRoom.
  destruct user as [u |]; [| cbn; auto].
  destruct (User.role u =? "customer"); [| cbn; auto].
  cbn [negb bind await run].
  pose proof (lookup_remote (User.id u) (remote w)) as Hdb.
  destruct (supabase _ (remote w)) as [[[found |] e] db1];
    cbn [snd] in Hdb; subst db1; cbn; [auto |].
  unfold supabase.
  destruct (gets_through 0 (arrive (remote w))); cbn; [| auto].
  split; [| auto]. right. eexists. eexists.
  repeat split; reflexivity.
Qed.

(** X16. For a customer, when the lookup of [getOrCreateChatRoom] is lost and
    the insert gets through, the call creates a room and returns it, whether
    the customer has rooms or not: the customer's rooms are those of before
    and the new one. *)
Theorem getOrCreateChatRoom_lost_lookup_creates
    (user : User.t) (w : World Supabase) :
  User.role user = "customer" ->
  gets_through 0 (remote w) = false ->
  gets_through 1 (remote w) = true ->
  let out := run supabase (getOrCreateChatRoom (Some user)) w in
  exists r,
    fst out = Some r
    /\ rooms_of_customer (User.id user) (remote (snd out))
       = rooms_of_customer (User.id user) (remote w) ++ [r]
    /\ ~ In (Room.id r) (map Room.id (chat_rooms (remote w))).
Proof.
  intros Hrole H0 H1. cbn zeta.
  unfold getOrCreateChatRoom. rewrite Hrole. cbn.
  unfold supabase. rewrite H0. cbn.
  rewrite gets_through_arrive, H1. cbn.
  eexists. split; [reflexivity |]. split.
  - unfold rooms_of_customer. cbn. rewrite filter_app. cbn.
    now rewrite String.eqb_refl.
  - apply (gen_random_uuid_fresh (map Room.id (chat_rooms (remote w)))).
Qed.

(** ** A customer's first visit *)

Lemma reliable_arrive db : reliable db = true -> reliable (arrive db) = true.
Proof.
  unfold reliable. cbn. destruct (outages db) as [| b l]; cbn; [auto |].
  intro H. apply andb_true_iff in H. tauto.
Qed.

(** For a customer, [fetchChatRooms] selects the customer's rooms, sorted. *)
Lemma select_rooms_customer (user : User.t) (db : Supabase) :
  User.role user = "customer" ->
  select_rooms (rooms_query user) db
  = sort_by (before room_time (rooms_updated_at, false))
            (rooms_of_customer (User.id user) db).
Proof.
  intro Hrole. unfold rooms_query, select_rooms, rows_of, rooms_of_customer.
  rewrite Hrole. cbn. f_equal.
  apply filter_ext. intro r.
  apply (matches_customer_ordered _ _ (rooms_updated_at, false)).
Qed.

(** X17. The first visit of a customer who has no room, every request getting
    through: after the initial load, the effect "Auto-create/select" creates
    the customer's room and reloads the list, its next run selects that
    room, and from then on it does nothing.  The customer ends with exactly
    one room, new, of status "waiting", shown and selected. *)
Theorem first_visit_provisions_one_room (user : User.t) (w : World Supabase) :
  User.role user = "customer" ->
  rooms_of_customer (User.id user) (remote w) = [] ->
  reliable (remote w) = true ->
  selectedChat (session w) = None ->
  let w1 := snd (run supabase (initialLoad (Some user)) w) in
  let w2 := after_render supabase (autoProvision (Some user)) w1 in
  let w3 := after_render supabase (autoProvision (Some user)) w2 in
  exists r,
    rooms_of_customer (User.id user) (remote w3) = [r]
    /\ Room.status r = "waiting"
    /\ ~ In (Room.id r) (map Room.id (chat_rooms (remote w)))
    /\ chatRooms (session w3) = [transform (with_profiles (remote w) r)]
    /\ selectedChat (session w3)
       = Some (transform (with_profiles (remote w) r))
    /\ loading (session w3) = false
    /\ after_render supabase (autoProvision (Some user)) w3 = w3.
Proof.
  intros Hrole Hnone Hrel Hsel. cbn zeta.
  (* the initial load shows an empty list *)
  destruct (fetchChatRooms_run user w (reliable_gets_through 0 _ Hrel))
    as [h1 E1].
  rewrite (select_rooms_customer user _ Hrole), Hnone in E1.
  cbn [sort_by fold_right insert_by map] in E1.
  unfold initialLoad. rewrite E1. cbn [snd].
  set (w1 := {| remote := arrive (remote w); clock := (clock w + 1)%N;
                session := {| chatRooms := [];
                              selectedChat := selectedChat (session w);
                              messages := messages (session w);
                              loading := false |};
                history := h1 |}).
  assert (Hrel1 : reliable (remote w1) = true) by now apply reliable_arrive.
  (* the effect creates the room and reloads *)
  destruct (getOrCreateChatRoom_run_created
              user w1 Hrole Hnone (reliable_gets_through 1 _ Hrel1))
    as [h2 E2].
  cbn zeta in E2.
  set (r := new_room {| ins_customer_id := User.id user;
                        ins_status := "waiting" |}
                     (arrive (arrive (remote w1)))) in *.
  set (w1' := {| remote := with_rooms
                             (chat_rooms (arrive (arrive (remote w1))) ++ [r])
                             (arrive (arrive (remote w1)));
                 clock := (clock w1 + 1 + 1)%N;
                 session := session w1;
                 history := h2 |}) in *.
  assert (Hrel1' : reliable (remote w1') = true).
  { apply (reliable_arrive _ (reliable_arrive _ Hrel1)). }
  assert (Hone : rooms_of_customer (User.id user) (remote w1') = [r]).
  { unfold rooms_of_customer in *. cbn. rewrite filter_app, Hnone. cbn.
    now rewrite String.eqb_refl. }
  destruct (fetchChatRooms_run user w1' (reliable_gets_through 0 _ Hrel1'))
    as [h3 E3].
  rewrite (select_rooms_customer user _ Hrole), Hone in E3.
  cbn [sort_by fold_right insert_by map] in E3.
  assert (E : after_render supabase (autoProvision (Some user)) w1
              = {| remote := arrive (remote w1');
                   clock := (clock w1' + 1)%N;
                   session :=
                     {| chatRooms := [transform (with_profiles (remote w) r)];
                        selectedChat := selectedChat (session w);
                        messages := messages (session w);
                        loading := false |};
                   history := h3 |}).
  { unfold after_render, autoProvision. cbn [session w1 chatRooms loading].
    unfold is_customer. rewrite Hrole. cbn [List.length Nat.eqb andb negb].
    rewrite String.eqb_refl. cbn [andb].
    rewrite run_bind, E2. cbn [fst snd].
    now rewrite E3. }
  rewrite E. clear E.
  exists r.
  unfold after_render, autoProvision, is_customer.
  rewrite Hrole, Hsel. cbn.
  repeat split; try reflexivity.
  - apply Hone.
  - apply (gen_random_uuid_fresh (map Room.id (chat_rooms (remote w)))).
Qed.

(** ** The further properties at the sample data *)

Lemma fetchChatRooms_failure_reported_witness :
  let w := mounted (database [room_1] [true]) in
  let w' := snd (run supabase (fetchChatRooms (Some zoe)) w) in
  error (fst (supabase (SelectRooms (rooms_query zoe)) (remote w))) <> None
  /\ toasts (history w') = [destructive "Failed to load chat rooms"]
  /\ loading (session w') = false.
Proof.
  cbn zeta.
  assert (H : error (fst (supabase (SelectRooms (rooms_query zoe))
                                   (remote (mounted (database [room_1] [true])))))
              <> None) by (vm_compute; discriminate).
  pose proof (fetchChatRooms_failure_reported
                Supabase supabase zoe (mounted (database [room_1] [true])) H)
    as P.
  split; [exact H |].
  split; [exact (proj1 P) | exact (proj2 (proj2 (proj2 (proj2 P))))].
Defined.

Lemma updateChatStatus_staff_request_witness :
  let w := mounted (database [room_1] [true]) in
  User.role sam <> "customer"
  /\ history (snd (run supabase
                     (updateChatStatus (Some sam) "room-1" active (Some "sam"))
                     w))
     = [Awaited (status_update "room-1" active (Some "sam")) (Some FetchFailed);
        Performed (toast (destructive "Failed to update chat status"))].
Proof.
  cbn zeta.
  assert (H : User.role sam <> "customer") by discriminate.
  split; [exact H |].
  apply (proj1 (updateChatStatus_staff_request
                  Supabase supabase sam "room-1" active (Some "sam")
                  (mounted (database [room_1] [true])) H)).
Defined.

Lemma getOrCreateChatRoom_not_customer_witness :
  let w := mounted (database [room_1] []) in
  is_customer (Some sam) = false
  /\ run supabase (getOrCreateChatRoom (Some sam)) w = (None, w).
Proof.
  cbn zeta. split; [reflexivity |].
  apply (getOrCreateChatRoom_not_customer Supabase supabase (Some sam) _ eq_refl).
Defined.

Lemma getOrCreateChatRoom_insert_failure_witness :
  let w := mounted (database [room_2] [false; true]) in
  let out := run supabase (getOrCreateChatRoom (Some zoe)) w in
  User.role zoe = "customer"
  /\ fst out = None
  /\ toasts (history (snd out)) = [destructive "Failed to create chat room"]
  /\ chat_rooms (remote (snd out)) = [room_2].
Proof.
  cbn zeta.
  assert (H : Some FetchFailed <> None) by discriminate.
  pose proof (getOrCreateChatRoom_insert_failure
                Supabase supabase zoe
                (mounted (database [room_2] [false; true])) eq_refl eq_refl H)
    as P.
  split; [reflexivity |].
  split; [exact (proj1 P) |].
  split; [exact (proj1 (proj2 P)) | reflexivity].
Defined.

Lemma autoProvision_idle_witness :
  let w := mounted (database [] []) in
  (is_customer (Some zoe) = false
   \/ (chatRooms initial_session = [] /\ loading initial_session = true)
   \/ 2 <= List.length (chatRooms initial_session)
   \/ (List.length (chatRooms initial_session) = 1
       /\ selectedChat initial_session <> None))
  /\ run supabase (autoProvision (Some zoe) initial_session) w = (tt, w).
Proof.
  cbn zeta.
  assert (H : is_customer (Some zoe) = false
              \/ (chatRooms initial_session = []
                  /\ loading initial_session = true)
              \/ 2 <= List.length (chatRooms initial_session)
              \/ (List.length (chatRooms initial_session) = 1
                  /\ selectedChat initial_session <> None))
    by (right; left; split; reflexivity).
  split; [exact H |].
  apply (autoProvision_idle Supabase supabase (Some zoe) initial_session _ H).
Defined.

Lemma autoProvision_selects_only_room_witness :
  let shown := transform (with_profiles (database [room_1] []) room_1) in
  let w :=
    {| remote := database [room_1] []; clock := 100%N;
       session := {| chatRooms := [shown]; selectedChat := None;
                     messages := []; loading := false |};
       history := [] |} in
  is_customer (Some zoe) = true
  /\ chatRooms (session w) = [shown]
  /\ selectedChat (session w) = None
  /\ selectedChat
       (session (after_render supabase (autoProvision (Some zoe)) w))
     = Some shown.
Proof.
  cbn zeta. do 3 (split; [reflexivity |]).
  apply (proj1 (autoProvision_selects_only_room
                  Supabase supabase (Some zoe)
                  (transform (with_profiles (database [room_1] []) room_1))
                  {| remote := database [room_1] []; clock := 100%N;
                     session :=
                       {| chatRooms :=
                            [transform
                               (with_profiles (database [room_1] []) room_1)];
                          selectedChat := None;
                          messages := []; loading := false |};
                     history := [] |}
                  eq_refl eq_refl eq_refl)).
Defined.

Lemma fetchChatRooms_most_recent_first_witness :
  let w := mounted (database [room_1; room_2; room_3] []) in
  let seen :=
    chatRooms (session (snd (run supabase (fetchChatRooms (Some sam)) w))) in
  gets_through 0 (remote w) = true
  /\ map ChatRoom.id seen = ["room-2"; "room-3"; "room-1"]
  /\ StronglySorted
       (fun a b => (ChatRoom.updated_at b <= ChatRoom.updated_at a)%N) seen.
Proof.
  cbn zeta. do 2 (split; [reflexivity |]).
  apply (fetchChatRooms_most_recent_first
           sam (mounted (database [room_1; room_2; room_3] [])) eq_refl).
Defined.

Lemma sendMessage_stores_trimmed_text_witness :
  let w := mounted (database [room_1] []) in
  let w' := snd (run supabase (sendMessage (Some zoe) "room-1" (js " hi ")) w) in
  trim (js " hi ") <> []
  /\ gets_through 0 (remote w) = true
  /\ map Msg.message (chat_messages (remote w'))
     = [js "hello"; js "welcome"; js "hi"; js "hi"]
  /\ exists stored,
       chat_messages (remote w') = chat_messages (remote w) ++ [stored]
       /\ Msg.chat_room_id stored = "room-1"
       /\ Msg.sender_id stored = "zoe"
       /\ Msg.message stored = trim (js " hi ")
       /\ is_whitespace (hd 32%N (Msg.message stored)) = false
       /\ is_whitespace (last (Msg.message stored) 32%N) = false
       /\ ~ In (Msg.id stored) (map Msg.id (chat_messages (remote w))).
Proof.
  cbn zeta.
  assert (H : trim (js " hi ") <> []) by (vm_compute; discriminate).
  split; [exact H |]. do 2 (split; [reflexivity |]).
  apply (sendMessage_stores_trimmed_text
           zoe "room-1" (js " hi ") (mounted (database [room_1] [])) H eq_refl).
Defined.

Lemma sendMessage_then_fetchMessages_witness :
  let w := mounted (database [room_1] []) in
  let w1 := snd (run supabase (sendMessage (Some zoe) "room-1" (js " hi ")) w) in
  let w2 := snd (run supabase (fetchMessages "room-1") w1) in
  trim (js " hi ") <> []
  /\ gets_through 0 (remote w) = true
  /\ gets_through 2 (remote w) = true
  /\ exists m,
       In m (messages (session w2))
       /\ Msg.chat_room_id (msg_row m) = "room-1"
       /\ Msg.sender_id (msg_row m) = "zoe"
       /\ Msg.message (msg_row m) = trim (js " hi ").
Proof.
  cbn zeta.
  assert (H : trim (js " hi ") <> []) by (vm_compute; discriminate).
  split; [exact H |]. do 2 (split; [reflexivity |]).
  apply (sendMessage_then_fetchMessages
           zoe "room-1" (js " hi ") (mounted (database [room_1] []))
           H eq_refl eq_refl).
Defined.

Lemma sendMessage_lost_insert_still_touches_witness :
  let w := mounted (database [room_1; room_2] [true]) in
  let w' := snd (run supabase (sendMessage (Some zoe) "room-1" (js " hi ")) w) in
  trim (js " hi ") <> []
  /\ gets_through 0 (remote w) = false
  /\ gets_through 1 (remote w) = true
  /\ chat_messages (remote w') = [hello; welcome; other]
  /\ map Room.updated_at (chat_rooms (remote w')) = [101%N; 9%N].
Proof.
  cbn zeta.
  assert (H : trim (js " hi ") <> []) by (vm_compute; discriminate).
  pose proof (sendMessage_lost_insert_still_touches
                zoe "room-1" (js " hi ")
                (mounted (database [room_1; room_2] [true])) H eq_refl eq_refl)
    as P.
  split; [exact H |]. do 2 (split; [reflexivity |]).
  split; [exact (proj1 P) |].
  exact (f_equal (map Room.updated_at) (proj1 (proj2 P))).
Defined.

Lemma updateChatStatus_staff_effect_witness :
  let w := mounted (database [room_3; room_2] []) in
  let w' :=
    snd (run supabase
           (updateChatStatus (Some sam) "room-3" active (Some "sam")) w) in
  User.role sam <> "customer"
  /\ gets_through 0 (remote w) = true
  /\ chat_rooms (remote w')
     = [Room.make "room-3" "zoe" (Some "sam") "active" 6%N 7%N; room_2].
Proof.
  cbn zeta.
  assert (H : User.role sam <> "customer") by discriminate.
  split; [exact H |]. split; [reflexivity |].
  apply (proj1 (updateChatStatus_staff_effect
                  sam "room-3" active (Some "sam")
                  (mounted (database [room_3; room_2] [])) H eq_refl)).
Defined.

Lemma getOrCreateChatRoom_lost_lookup_creates_witness :
  let w := mounted (database [room_1] [true]) in
  let out := run supabase (getOrCreateChatRoom (Some zoe)) w in
  User.role zoe = "customer"
  /\ gets_through 0 (remote w) = false
  /\ gets_through 1 (remote w) = true
  /\ exists r,
       fst out = Some r
       /\ rooms_of_customer "zoe" (remote (snd out)) = [room_1; r]
       /\ ~ In (Room.id r) ["room-1"].
Proof.
  cbn zeta. do 3 (split; [reflexivity |]).
  apply (getOrCreateChatRoom_lost_lookup_creates
           zoe (mounted (database [room_1] [true])) eq_refl eq_refl eq_refl).
Defined.

Lemma first_visit_provisions_one_room_witness :
  let w := mounted (database [room_2] []) in
  let w1 := snd (run supabase (initialLoad (Some zoe)) w) in
  let w2 := after_render supabase (autoProvision (Some zoe)) w1 in
  let w3 := after_render supabase (autoProvision (Some zoe)) w2 in
  User.role zoe = "customer"
  /\ rooms_of_customer "zoe" (remote w) = []
  /\ reliable (remote w) = true
  /\ selectedChat (session w) = None
  /\ exists r,
       rooms_of_customer "zoe" (remote w3) = [r]
       /\ Room.status r = "waiting"
       /\ ~ In (Room.id r) ["room-2"]
       /\ chatRooms (session w3) = [transform (with_profiles (remote w) r)]
       /\ selectedChat (session w3)
          = Some (transform (with_profiles (remote w) r))
       /\ loading (session w3) = false
       /\ after_render supabase (autoProvision (Some zoe)) w3 = w3.
Proof.
  cbn zeta. do 4 (split; [reflexivity |]).
  apply (first_visit_provisions_one_room
           zoe (mounted (database [room_2] []))
           eq_refl eq_refl eq_refl eq_refl).
Defined.

Lemma getOrCreateChatRoom_twice_one_room_witness :
  let w := mounted (database [room_2] []) in
  User.role zoe = "customer"
  /\ List.length (rooms_of_customer "zoe" (remote w)) <= 1
  /\ reliable (remote w) = true
  /\ same_room_twice supabase zoe w.
Proof.
  cbn zeta.
  assert (H : List.length
                (rooms_of_customer "zoe"
                   (remote (mounted (database [room_2] [])))) <= 1)
    by (cbn; lia).
  split; [reflexivity |]. split; [exact H |]. split; [reflexivity |].
  apply (getOrCreateChatRoom_twice_one_room
           zoe (mounted (database [room_2] [])) eq_refl H eq_refl).
Defined.
